(** * OneDrive-Sync: a shallow embedding of the plugin and its OneDrive client

    The development follows the TypeScript sources:
    - [src/clients/onedriveClient.ts]: [refreshAccessToken], [getAccessToken],
      [listRemoteFolder], [uploadFile];
    - [src/clients/onedriveAuth.ts]: [setConfigBySuccessfulAuthInplace];
    - [main.ts]: [isAuthenticated], [updateStatusBar], [getAllFilesInFolder],
      [syncVault].

    Asynchronous code is sequential here (every [await] is awaited to
    completion before the next statement), so a method is a state
    transformer that either returns a value or throws.  JavaScript numbers
    are integers in all the places modelled (byte offsets, millisecond
    timestamps, HTTP statuses) and are represented by [Z].

    The remote side is a script: each endpoint (token, listing, upload
    session, chunk upload) holds the replies it will give to the successive
    requests it receives, and every request sent is recorded in a trace.
    Obsidian's [request] rejects on an HTTP error status, [fetch] hands the
    response over whatever its status.  The plugin's own fields, its saved
    data and the timers of the window live in a second record, [Host],
    around the state of the client.  What is left out: [generatePkceCodes]
    and the two [getAuthUrlAndVerifier] (random bytes, SHA-256, MSAL), the
    layout of the settings tab, and the registrations of [onload]. *)

From Stdlib Require Import ZArith Lia String Ascii List DecimalString.
From stdpp Require Import base list strings gmap.

Local Open Scope Z_scope.
Local Open Scope string_scope.

(** ** JavaScript helpers *)

Module JS.

(** Truthiness of a string: only the empty string is falsy. *)
Definition truthy (s : string) : bool := negb (String.eqb s "").

(** [a || b] on strings. *)
Definition or_else (a b : string) : string := if truthy a then a else b.

(** [x ?? d] and [x || d] on a possibly absent string. *)
Definition nullish (x : option string) (d : string) : string :=
  match x with Some v => v | None => d end.

Definition or_default (x : option string) (d : string) : string :=
  match x with Some v => or_else v d | None => d end.

(** [n || d] on a number: zero is falsy. *)
Definition num_or (n d : Z) : Z := if Z.eqb n 0 then d else n.

(** [`${n}`] for an integer. *)
Definition show (n : Z) : string := NilZero.string_of_int (Z.to_int n).

(** [s.substring(n)]. *)
Definition substring_from (n : nat) (s : string) : string :=
  String.substring n (String.length s - n) s.

(** [new Uint8Array(buf).subarray(b, e)] for [0 <= b]. *)
Definition subarray {A} (l : list A) (b e : Z) : list A :=
  take (Z.to_nat (e - b)) (drop (Z.to_nat b) l).

End JS.

(** ** Data of the client *)

Definition byte := Byte.byte.

(** [OneDriveConfig] together with the fields [PluginSettings] adds to it.
    The plugin hands its settings object itself to the client
    ([new OneDriveClient(this.settings)]), so a single record in the state
    stands for both. *)
Record OneDriveConfig := mkConfig {
  clientId : string;
  authority : string;
  redirectUri : string;
  accessToken : string;
  refreshToken : string;
  accessTokenExpiresAt : Z;
  remoteBaseFolder : string;
  localVaultFolder : string;
  periodicSync : bool;
  syncIntervalMinutes : Z;
}.

Definition set_accessToken (v : string) (c : OneDriveConfig) : OneDriveConfig :=
  mkConfig (clientId c) (authority c) (redirectUri c) v (refreshToken c)
           (accessTokenExpiresAt c) (remoteBaseFolder c) (localVaultFolder c)
           (periodicSync c) (syncIntervalMinutes c).

Definition set_refreshToken (v : string) (c : OneDriveConfig) : OneDriveConfig :=
  mkConfig (clientId c) (authority c) (redirectUri c) (accessToken c) v
           (accessTokenExpiresAt c) (remoteBaseFolder c) (localVaultFolder c)
           (periodicSync c) (syncIntervalMinutes c).

Definition set_accessTokenExpiresAt (v : Z) (c : OneDriveConfig) : OneDriveConfig :=
  mkConfig (clientId c) (authority c) (redirectUri c) (accessToken c)
           (refreshToken c) v (remoteBaseFolder c) (localVaultFolder c)
           (periodicSync c) (syncIntervalMinutes c).

Definition DEFAULT_SETTINGS : OneDriveConfig :=
  mkConfig "TU-CLIENT-ID" "https://login.microsoftonline.com/consumers"
           "obsidian://onedrive-auth" "" "" 0 "" "MyLocalVault" false 5.

Record AuthSuccessResponse := mkAuthSuccess {
  token_type : string;
  expires_in : Z;
  scope : string;
  access_token : string;
  refresh_token : option string;
}.

Record AuthErrorResponse := mkAuthError {
  error : string;
  error_description : string;
}.

(** [AuthSuccessResponse | AuthErrorResponse]; the code tells them apart
    with ["error" in result]. *)
Inductive TokenReply :=
| AuthSuccess (r : AuthSuccessResponse)
| AuthFailure (e : AuthErrorResponse).

(** The part of a Graph [DriveItem] the client looks at. *)
Module Graph.
Record DriveItem := mkDriveItem {
  id : option string;
  name : string;
  size : Z;
}.
End Graph.
Abbreviation DriveItem := Graph.DriveItem.

Definition SCOPES : list string := ["User.Read"; "Files.ReadWrite"; "offline_access"].

Definition CHUNK_SIZE : Z := 5 * 1024 * 1024.

(** ** Requests and replies *)

Inductive ReqBody :=
| NoBody
| Form (params : list (string * string))
| Json (fields : list (string * list (string * string)))
| Bytes (b : list byte).

Record Request := mkRequest {
  method : string;
  url : string;
  headers : list (string * string);
  body : ReqBody;
}.

(** What one network exchange gives back: the promise rejects, or a reply
    arrives after [elapsed] milliseconds. *)
Inductive Fetched (A : Type) :=
| Rejected (reason : string)
| Arrived (elapsed : Z) (a : A).
Arguments Rejected {A} reason.
Arguments Arrived {A} elapsed a.

(** A [fetch] response; [json = None] is a body that [resp.json()] cannot
    parse. *)
Record Response (A : Type) := mkResponse {
  ok : bool;
  status : Z;
  text : string;
  json : option A;
}.
Arguments mkResponse {A} ok status text json.
Arguments ok {A} r.
Arguments status {A} r.
Arguments text {A} r.
Arguments json {A} r.

Record ListingEnvelope := mkListing { value : option (list DriveItem) }.
Record SessionData := mkSession { uploadUrl : option string }.

(** ** The vault *)

(** Obsidian's [TAbstractFile], with its two subclasses; [instanceof] is a
    match on the constructor.  A file node carries the bytes
    [vault.readBinary] returns for it. *)
Unset Elimination Schemes.
Inductive TAbstractFile :=
| TFile (path : string) (data : list byte)
| TFolder (path : string) (children : list TAbstractFile).
Set Elimination Schemes.

Definition path (f : TAbstractFile) : string :=
  match f with TFile p _ => p | TFolder p _ => p end.

Definition isTFile (f : TAbstractFile) : bool :=
  match f with TFile _ _ => true | TFolder _ _ => false end.

(** ** State and effects *)

Record State := mkState {
  settings : OneDriveConfig;
  statusBarEl : option string;
  notices : list string;
  console : list string;
  vault : gmap string TAbstractFile;
  clock : Z;
  tokenEndpoint : list (Fetched (option TokenReply));
  listingEndpoint : list (Fetched (option ListingEnvelope));
  sessionEndpoint : list (Fetched (Response SessionData));
  uploadEndpoint : list (Fetched (Response DriveItem));
  trace : list Request;
}.

Definition set_settings (v : OneDriveConfig) (s : State) : State :=
  mkState v (statusBarEl s) (notices s) (console s) (vault s) (clock s)
          (tokenEndpoint s) (listingEndpoint s) (sessionEndpoint s)
          (uploadEndpoint s) (trace s).

Definition set_statusBarEl (v : option string) (s : State) : State :=
  mkState (settings s) v (notices s) (console s) (vault s) (clock s)
          (tokenEndpoint s) (listingEndpoint s) (sessionEndpoint s)
          (uploadEndpoint s) (trace s).

Definition set_notices (v : list string) (s : State) : State :=
  mkState (settings s) (statusBarEl s) v (console s) (vault s) (clock s)
          (tokenEndpoint s) (listingEndpoint s) (sessionEndpoint s)
          (uploadEndpoint s) (trace s).

Definition set_console (v : list string) (s : State) : State :=
  mkState (settings s) (statusBarEl s) (notices s) v (vault s) (clock s)
          (tokenEndpoint s) (listingEndpoint s) (sessionEndpoint s)
          (uploadEndpoint s) (trace s).

Definition set_clock (v : Z) (s : State) : State :=
  mkState (settings s) (statusBarEl s) (notices s) (console s) (vault s) v
          (tokenEndpoint s) (listingEndpoint s) (sessionEndpoint s)
          (uploadEndpoint s) (trace s).

Definition set_tokenEndpoint v (s : State) : State :=
  mkState (settings s) (statusBarEl s) (notices s) (console s) (vault s)
          (clock s) v (listingEndpoint s) (sessionEndpoint s)
          (uploadEndpoint s) (trace s).

Definition set_listingEndpoint v (s : State) : State :=
  mkState (settings s) (statusBarEl s) (notices s) (console s) (vault s)
          (clock s) (tokenEndpoint s) v (sessionEndpoint s)
          (uploadEndpoint s) (trace s).

Definition set_sessionEndpoint v (s : State) : State :=
  mkState (settings s) (statusBarEl s) (notices s) (console s) (vault s)
          (clock s) (tokenEndpoint s) (listingEndpoint s) v
          (uploadEndpoint s) (trace s).

Definition set_uploadEndpoint v (s : State) : State :=
  mkState (settings s) (statusBarEl s) (notices s) (console s) (vault s)
          (clock s) (tokenEndpoint s) (listingEndpoint s) (sessionEndpoint s)
          v (trace s).

Definition set_trace (v : list Request) (s : State) : State :=
  mkState (settings s) (statusBarEl s) (notices s) (console s) (vault s)
          (clock s) (tokenEndpoint s) (listingEndpoint s) (sessionEndpoint s)
          (uploadEndpoint s) v.

(** The outcome of a call: a value, a thrown [Error] with its message, or
    a loop that was cut off by its fuel. *)
Inductive Res (A : Type) :=
| Ret (a : A)
| Throw (msg : string)
| OutOfFuel.
Arguments Ret {A} a.
Arguments Throw {A} msg.
Arguments OutOfFuel {A}.

Definition M (A : Type) : Type := State -> Res A * State.

Definition ret {A} (a : A) : M A := fun s => (Ret a, s).

Definition throw {A} (msg : string) : M A := fun s => (Throw msg, s).

Definition bind {A B} (m : M A) (k : A -> M B) : M B :=
  fun s =>
    match m s with
    | (Ret a, s') => k a s'
    | (Throw msg, s') => (Throw msg, s')
    | (OutOfFuel, s') => (OutOfFuel, s')
    end.

Notation "x <- m ;; k" := (bind m (fun x => k))
  (at level 100, m at next level, right associativity).
Notation "m ;;; k" := (bind m (fun _ => k))
  (at level 100, right associativity).

(** [try { body } catch (err) { handler }]. *)
Definition try_catch {A} (body : M A) (handler : string -> M A) : M A :=
  fun s =>
    match body s with
    | (Throw msg, s') => handler msg s'
    | r => r
    end.

Definition gets {A} (f : State -> A) : M A := fun s => (Ret (f s), s).

Definition modify (f : State -> State) : M unit := fun s => (Ret tt, f s).

Definition Date_now : M Z := gets clock.

Definition Notice (msg : string) : M unit :=
  modify (fun s => set_notices (notices s ++ [msg]) s).

Definition console_log (msg : string) : M unit :=
  modify (fun s => set_console (console s ++ [msg]) s).

(** One exchange with an endpoint: the request is recorded, and the next
    scripted reply of the endpoint is consumed.  An endpoint with nothing
    left to say is unreachable. *)
Definition exchange {A} (get : State -> list (Fetched A))
    (set : list (Fetched A) -> State -> State) (req : Request) : M A :=
  fun s =>
    let s1 := set_trace (trace s ++ [req]) s in
    match get s with
    | [] => (Throw "Failed to fetch", s1)
    | Rejected reason :: q => (Throw reason, set q s1)
    | Arrived dt a :: q => (Ret a, set_clock (clock s + dt) (set q s1))
    end.

(** [JSON.parse] / [resp.json()] on a body that may be malformed. *)
Definition parsed {A} (x : option A) : M A :=
  match x with
  | Some a => ret a
  | None => throw "SyntaxError: Unexpected token in JSON"
  end.

(** ** The client: [onedriveClient.ts] *)

Section Client.

(** The built-in [encodeURI]. *)
Variable encodeURI : string -> string.

Definition tokenUrl (config : OneDriveConfig) : string :=
  authority config +:+ "/oauth2/v2.0/token".

(** The request [refreshAccessToken] sends; the form body is kept as its
    parameters, before [URLSearchParams.toString] encodes them. *)
Definition refreshRequest (config : OneDriveConfig) : Request :=
  mkRequest "POST" (tokenUrl config)
    [("Content-Type", "application/x-www-form-urlencoded")]
    (Form [("client_id", clientId config);
           ("grant_type", "refresh_token");
           ("refresh_token", refreshToken config);
           ("scope", String.concat " " SCOPES)]).

Definition refreshAccessToken (config : OneDriveConfig) : M TokenReply :=
  if negb (JS.truthy (refreshToken config)) then
    throw "No refreshToken. El usuario debe autenticarse primero."
  else
    respText <- exchange tokenEndpoint set_tokenEndpoint (refreshRequest config) ;;
    parsed respText.

Definition refreshErrorMessage (e : AuthErrorResponse) : string :=
  "Refresh token error: " +:+ JS.or_else (error_description e) (error e).

Definition getAccessToken : M string :=
  now <- Date_now ;;
  config <- gets settings ;;
  if JS.truthy (accessToken config) && (now <? accessTokenExpiresAt config)%Z then
    ret (accessToken config)
  else
    result <- refreshAccessToken config ;;
    match result with
    | AuthFailure e => throw (refreshErrorMessage e)
    | AuthSuccess r =>
        modify (fun s => set_settings (set_accessToken (access_token r) (settings s)) s) ;;;
        modify (fun s => set_settings
                  (set_refreshToken (JS.nullish (refresh_token r) "") (settings s)) s) ;;;
        let expiresInMs := JS.num_or (expires_in r) 3600 * 1000 in
        now' <- Date_now ;;
        modify (fun s => set_settings
                  (set_accessTokenExpiresAt (now' + expiresInMs - 120000) (settings s)) s) ;;;
        gets (fun s => accessToken (settings s))
    end.

Definition graphRoot : string := "https://graph.microsoft.com/v1.0".

Definition listRequest (config : OneDriveConfig) (token : string) : Request :=
  let path :=
    if JS.truthy (remoteBaseFolder config)
    then "/drive/root:/" +:+ remoteBaseFolder config +:+ ":/children"
    else "/drive/root/children" in
  mkRequest "GET" (graphRoot +:+ path)
    [("Authorization", "Bearer " +:+ token)] NoBody.

Definition listRemoteFolder : M (list DriveItem) :=
  token <- getAccessToken ;;
  config <- gets settings ;;
  respText <- exchange listingEndpoint set_listingEndpoint (listRequest config token) ;;
  data <- parsed respText ;;
  ret (match value data with Some items => items | None => [] end).

Definition createSessionRequest (config : OneDriveConfig) (token relativePath : string)
  : Request :=
  let fullPath := "/drive/root:" in
  let fullPath :=
    if JS.truthy (remoteBaseFolder config)
    then fullPath +:+ "/" +:+ remoteBaseFolder config
    else fullPath in
  let fullPath := fullPath +:+ "/" +:+ relativePath +:+ ":/createUploadSession" in
  mkRequest "POST" (graphRoot +:+ encodeURI fullPath)
    [("Authorization", "Bearer " +:+ token); ("Content-Type", "application/json")]
    (Json [("item", [("@microsoft.graph.conflictBehavior", "replace")])]).

Definition contentRange (offset chunkEnd fileSize : Z) : string :=
  "bytes " +:+ JS.show offset +:+ "-" +:+ JS.show (chunkEnd - 1)
           +:+ "/" +:+ JS.show fileSize.

Definition chunkRequest (uploadUrl : string) (content : list byte)
    (offset chunkEnd fileSize : Z) : Request :=
  mkRequest "PUT" uploadUrl
    [("Content-Type", "application/octet-stream");
     ("Content-Range", contentRange offset chunkEnd fileSize)]
    (Bytes (JS.subarray content offset chunkEnd)).

(** [rjson.id] as a condition. *)
Definition hasId (item : DriveItem) : bool :=
  match Graph.id item with Some i => JS.truthy i | None => false end.

(** The [while (offset < fileSize)] loop of [uploadFile], for a chunk
    size [chunkSize]; [fuel] bounds the number of iterations. *)
Fixpoint uploadLoop (fuel : nat) (chunkSize : Z) (uploadUrl : string)
    (content : list byte) (fileSize offset : Z) (finalItem : option DriveItem)
    : M (option DriveItem) :=
  if (offset <? fileSize)%Z then
    match fuel with
    | O => fun s => (OutOfFuel, s)
    | S fuel' =>
        let chunkEnd := Z.min (offset + chunkSize) fileSize in
        resp <- exchange uploadEndpoint set_uploadEndpoint
                  (chunkRequest uploadUrl content offset chunkEnd fileSize) ;;
        if negb (ok resp) then
          throw ("Error subiendo chunk. HTTP " +:+ JS.show (status resp))
        else
          rjson <- parsed (json resp) ;;
          let finalItem := if hasId rjson then Some rjson else finalItem in
          uploadLoop fuel' chunkSize uploadUrl content fileSize chunkEnd finalItem
    end
  else ret finalItem.

Definition uploadFileWith (chunkSize : Z) (fuel : nat)
    (relativePath : string) (content : list byte) : M DriveItem :=
  token <- getAccessToken ;;
  config <- gets settings ;;
  sessionResp <- exchange sessionEndpoint set_sessionEndpoint
                   (createSessionRequest config token relativePath) ;;
  if negb (ok sessionResp) then
    throw ("Error al crear UploadSession: " +:+ JS.show (status sessionResp)
           +:+ " - " +:+ text sessionResp)
  else
    sessionData <- parsed (json sessionResp) ;;
    let uploadUrl := JS.nullish (uploadUrl sessionData) "" in
    if negb (JS.truthy uploadUrl) then
      throw "No se obtuvo uploadUrl de la sesión."
    else
      let fileSize := Z.of_nat (length content) in
      finalItem <- uploadLoop fuel chunkSize uploadUrl content fileSize 0 None ;;
      match finalItem with
      | None => throw "No se obtuvo DriveItem final tras la subida."
      | Some item => ret item
      end.

(** [uploadFile] proper: chunks of [CHUNK_SIZE] bytes.  The loop runs at
    most once per byte, so the length of the buffer is fuel enough
    (see [uploadFile_total]). *)
Definition uploadFile (relativePath : string) (content : list byte) : M DriveItem :=
  uploadFileWith CHUNK_SIZE (length content) relativePath content.

End Client.

(** ** [onedriveAuth.ts] *)

Module Auth.

Inductive EmptyFilePolicy := skip | error.

(** The constant field [kind: "onedrivefull"] is left out. *)
Record OnedriveFullConfig := mkFullConfig {
  accessToken : string;
  clientID : string;
  authority : string;
  refreshToken : string;
  accessTokenExpiresInSeconds : Z;
  accessTokenExpiresAtTime : Z;
  deltaLink : string;
  username : string;
  credentialsShouldBeDeletedAtTime : Z;
  emptyFile : EmptyFilePolicy;
  remoteBaseDir : option string;
}.

Definition OAUTH2_FORCE_EXPIRE_MILLISECONDS : Z := 1000 * 60 * 60 * 24 * 80.

(** The config is mutated in place; here the updated record is returned.
    [saveUpdatedConfigFunc] is the optional save hook. *)
Definition setConfigBySuccessfulAuthInplace (config : OnedriveFullConfig)
    (authRes : AuthSuccessResponse) (saveUpdatedConfigFunc : option (M unit))
    : M OnedriveFullConfig :=
  console_log "Actualizando la config local de OneDrive tokens" ;;;
  now <- Date_now ;;
  now' <- Date_now ;;
  let config' :=
    mkFullConfig
      (access_token authRes)
      (clientID config)
      (authority config)
      (JS.or_default (refresh_token authRes) "")
      (expires_in authRes)
      (now + expires_in authRes * 1000 - 5 * 60 * 1000)
      (deltaLink config)
      (username config)
      (now' + OAUTH2_FORCE_EXPIRE_MILLISECONDS)
      (emptyFile config)
      (remoteBaseDir config) in
  match saveUpdatedConfigFunc with
  | Some save => save
  | None => ret tt
  end ;;;
  console_log "Finalizada la actualización de tokens OneDrive" ;;;
  ret config'.

End Auth.

(** ** The plugin: [main.ts] *)

Section Plugin.

Variable encodeURI : string -> string.

Definition isAuthenticated : M bool :=
  gets (fun s => JS.truthy (accessToken (settings s))
                 && JS.truthy (refreshToken (settings s))).

(** [statusBarEl.setText], when there is a status bar item. *)
Definition withStatus (status : string) (s : State) : State :=
  match statusBarEl s with
  | Some _ => set_statusBarEl (Some ("OneDrive: " +:+ status)) s
  | None => s
  end.

Definition updateStatusBar (status : string) : M unit :=
  modify (withStatus status).

Definition getAbstractFileByPath (p : string) : M (option TAbstractFile) :=
  gets (fun s => vault s !! p).

Definition readBinary (file : TAbstractFile) : M (list byte) :=
  ret (match file with TFile _ data => data | TFolder _ _ => [] end).

(** The closure [recurse] of [getAllFilesInFolder]; the array [result] it
    pushes to is threaded through. *)
Fixpoint recurse (f : TAbstractFile) (result : list TAbstractFile)
  : list TAbstractFile :=
  match f with
  | TFolder _ children =>
      fold_left
        (fun result child =>
           match child with
           | TFile _ _ => (result ++ [child])%list
           | TFolder _ _ => recurse child result
           end)
        children result
  | TFile _ _ => result
  end.

Definition getAllFilesInFolder (folderPath : string) : M (list TAbstractFile) :=
  folder <- getAbstractFileByPath folderPath ;;
  let result := [] in
  ret (match folder with
       | Some (TFolder p children) => recurse (TFolder p children) result
       | _ => result
       end).

(** The body of the [for (const file of allFiles)] loop of [syncVault]. *)
Fixpoint uploadAll (localFolderPath : string) (allFiles : list TAbstractFile)
  : M unit :=
  match allFiles with
  | [] => ret tt
  | file :: rest =>
      arrayBuf <- readBinary file ;;
      let relativePath :=
        JS.substring_from (String.length localFolderPath + 1) (path file) in
      uploadFile encodeURI relativePath arrayBuf ;;;
      uploadAll localFolderPath rest
  end.

Definition syncVault : M unit :=
  authenticated <- isAuthenticated ;;
  if negb authenticated then
    Notice "No estás autenticado en OneDrive."
  else
    try_catch
      (updateStatusBar "Syncing..." ;;;
       localFolderPath <- gets (fun s => localVaultFolder (settings s)) ;;
       localFolder <- getAbstractFileByPath localFolderPath ;;
       match localFolder with
       | Some (TFolder _ _) =>
           allFiles <- getAllFilesInFolder localFolderPath ;;
           uploadAll localFolderPath allFiles ;;;
           Notice ("Sync completado. Subidos "
                   +:+ JS.show (Z.of_nat (length allFiles)) +:+ " archivos.") ;;;
           updateStatusBar "Idle"
       | _ =>
           Notice ("Carpeta local '" +:+ localFolderPath
                   +:+ "' no existe en el Vault.") ;;;
           updateStatusBar "Error: no local folder"
       end)
      (fun err =>
         console_log ("Error al syncVault: " +:+ err) ;;;
         updateStatusBar "Error" ;;;
         Notice "Error al sincronizar con OneDrive. Ver consola.").

End Plugin.

(** * The rest of the client *)

(** ** [base64URLEncode] *)

Section Base64.

(** The built-in [btoa]. *)
Variable btoa : string -> string.

(** The loop [str += String.fromCharCode(buffer[i])]. *)
Definition binaryString (buffer : list byte) : string :=
  fold_left (fun str b => str +:+ String (ascii_of_byte b) EmptyString) buffer "".

(** [s.replace(/c/g, d)] for a single character [c]. *)
Fixpoint replaceAll (c d : ascii) (s : string) : string :=
  match s with
  | EmptyString => EmptyString
  | String x s' => String (if Ascii.eqb x c then d else x) (replaceAll c d s')
  end.

(** [s.replace(/=+$/, "")]: the run of [=] the string ends with is cut. *)
Fixpoint stripPadding (s : string) : string :=
  match s with
  | EmptyString => EmptyString
  | String x s' =>
      match stripPadding s' with
      | EmptyString => if Ascii.eqb x "=" then EmptyString else String x EmptyString
      | rest => String x rest
      end
  end.

Definition base64URLEncode (buffer : list byte) : string :=
  let str := binaryString buffer in
  stripPadding (replaceAll "/" "_" (replaceAll "+" "-" (btoa str))).

End Base64.

(** ** [exchangeAuthCodeForTokens] *)

Definition exchangeRequest (config : OneDriveConfig) (code codeVerifier : string)
  : Request :=
  mkRequest "POST" (tokenUrl config)
    [("Content-Type", "application/x-www-form-urlencoded")]
    (Form [("client_id", clientId config);
           ("grant_type", "authorization_code");
           ("code", code);
           ("redirect_uri", redirectUri config);
           ("code_verifier", codeVerifier);
           ("scope", String.concat " " SCOPES)]).

Definition exchangeAuthCodeForTokens (config : OneDriveConfig)
    (code codeVerifier : string) : M TokenReply :=
  respText <- exchange tokenEndpoint set_tokenEndpoint
                (exchangeRequest config code codeVerifier) ;;
  parsed respText.

(** ** [onedriveAuth.ts]: the two token requests *)

Definition REDIRECT_URI : string := "obsidian://my-callback".

Definition sendAuthRequest (clientID authority authCode verifier : string) : Request :=
  mkRequest "POST" (authority +:+ "/oauth2/v2.0/token")
    [("Content-Type", "application/x-www-form-urlencoded")]
    (Form [("tenant", "consumers");
           ("client_id", clientID);
           ("scope", String.concat " " SCOPES);
           ("code", authCode);
           ("redirect_uri", REDIRECT_URI);
           ("grant_type", "authorization_code");
           ("code_verifier", verifier)]).

(** Both branches of [if (rsp.error)] return [rsp]; the [catch] logs and
    throws the error again. *)
Definition sendAuthReq (clientID authority authCode verifier : string)
  : M TokenReply :=
  try_catch
    (rspRaw <- exchange tokenEndpoint set_tokenEndpoint
                 (sendAuthRequest clientID authority authCode verifier) ;;
     rsp <- parsed rspRaw ;;
     match rsp with
     | AuthFailure e => ret (AuthFailure e)
     | AuthSuccess r => ret (AuthSuccess r)
     end)
    (fun e => console_log ("Error en sendAuthReq: " +:+ e) ;;; throw e).

Definition sendRefreshTokenRequest (clientID authority refreshToken : string)
  : Request :=
  mkRequest "POST" (authority +:+ "/oauth2/v2.0/token")
    [("Content-Type", "application/x-www-form-urlencoded")]
    (Form [("tenant", "consumers");
           ("client_id", clientID);
           ("scope", String.concat " " SCOPES);
           ("refresh_token", refreshToken);
           ("grant_type", "refresh_token")]).

Definition sendRefreshTokenReq (clientID authority refreshToken : string)
  : M TokenReply :=
  try_catch
    (rspRaw <- exchange tokenEndpoint set_tokenEndpoint
                 (sendRefreshTokenRequest clientID authority refreshToken) ;;
     rsp <- parsed rspRaw ;;
     match rsp with
     | AuthFailure e => ret (AuthFailure e)
     | AuthSuccess r => ret (AuthSuccess r)
     end)
    (fun e => console_log ("Error en sendRefreshTokenReq: " +:+ e) ;;; throw e).

(** * The host: plugin fields, saved data, timers, the other endpoints *)

(** What [loadData] gives back: the keys that were saved. *)
Record SavedData := mkSaved {
  saved_clientId : option string;
  saved_authority : option string;
  saved_redirectUri : option string;
  saved_accessToken : option string;
  saved_refreshToken : option string;
  saved_accessTokenExpiresAt : option Z;
  saved_remoteBaseFolder : option string;
  saved_localVaultFolder : option string;
  saved_periodicSync : option bool;
  saved_syncIntervalMinutes : option Z;
}.

(** The item metadata [readFile] asks for: the property
    [@microsoft.graph.downloadUrl]. *)
Record ItemMetadata := mkMetadata { downloadUrl : option string }.

(** The response to the download: status and body. *)
Record Download := mkDownload {
  download_ok : bool;
  download_status : Z;
  download_body : list byte;
}.

Record Host := mkHost {
  core : State;
  deleteEndpoint : list (Fetched (Response unit));
  metadataEndpoint : list (Fetched (option ItemMetadata));
  downloadEndpoint : list (Fetched Download);
  savedData : option SavedData;
  pkceVerifier : string;
  syncIntervalId : option Z;
  intervals : list (Z * Z);
  nextIntervalId : Z;
}.

Definition set_core (v : State) (h : Host) : Host :=
  mkHost v (deleteEndpoint h) (metadataEndpoint h) (downloadEndpoint h)
         (savedData h) (pkceVerifier h) (syncIntervalId h) (intervals h)
         (nextIntervalId h).

Definition set_deleteEndpoint v (h : Host) : Host :=
  mkHost (core h) v (metadataEndpoint h) (downloadEndpoint h)
         (savedData h) (pkceVerifier h) (syncIntervalId h) (intervals h)
         (nextIntervalId h).

Definition set_metadataEndpoint v (h : Host) : Host :=
  mkHost (core h) (deleteEndpoint h) v (downloadEndpoint h)
         (savedData h) (pkceVerifier h) (syncIntervalId h) (intervals h)
         (nextIntervalId h).

Definition set_downloadEndpoint v (h : Host) : Host :=
  mkHost (core h) (deleteEndpoint h) (metadataEndpoint h) v
         (savedData h) (pkceVerifier h) (syncIntervalId h) (intervals h)
         (nextIntervalId h).

Definition set_savedData (v : option SavedData) (h : Host) : Host :=
  mkHost (core h) (deleteEndpoint h) (metadataEndpoint h) (downloadEndpoint h)
         v (pkceVerifier h) (syncIntervalId h) (intervals h)
         (nextIntervalId h).

Definition set_syncIntervalId (v : option Z) (h : Host) : Host :=
  mkHost (core h) (deleteEndpoint h) (metadataEndpoint h) (downloadEndpoint h)
         (savedData h) (pkceVerifier h) v (intervals h) (nextIntervalId h).

Definition set_intervals (v : list (Z * Z)) (h : Host) : Host :=
  mkHost (core h) (deleteEndpoint h) (metadataEndpoint h) (downloadEndpoint h)
         (savedData h) (pkceVerifier h) (syncIntervalId h) v (nextIntervalId h).

Definition set_nextIntervalId (v : Z) (h : Host) : Host :=
  mkHost (core h) (deleteEndpoint h) (metadataEndpoint h) (downloadEndpoint h)
         (savedData h) (pkceVerifier h) (syncIntervalId h) (intervals h) v.

Definition HostM (A : Type) : Type := Host -> Res A * Host.

Definition hret {A} (a : A) : HostM A := fun h => (Ret a, h).

Definition hthrow {A} (msg : string) : HostM A := fun h => (Throw msg, h).

Definition hbind {A B} (m : HostM A) (k : A -> HostM B) : HostM B :=
  fun h =>
    match m h with
    | (Ret a, h') => k a h'
    | (Throw msg, h') => (Throw msg, h')
    | (OutOfFuel, h') => (OutOfFuel, h')
    end.

Notation "x <~ m ;; k" := (hbind m (fun x => k))
  (at level 100, m at next level, right associativity).
Notation "m ~;; k" := (hbind m (fun _ => k))
  (at level 100, right associativity).

Definition htry_catch {A} (body : HostM A) (handler : string -> HostM A)
  : HostM A :=
  fun h =>
    match body h with
    | (Throw msg, h') => handler msg h'
    | r => r
    end.

(** A method of the client or of the plugin, run on the state inside. *)
Definition lift {A} (m : M A) : HostM A :=
  fun h => let (r, s') := m (core h) in (r, set_core s' h).

Definition hgets {A} (f : Host -> A) : HostM A := fun h => (Ret (f h), h).

Definition hmodify (f : Host -> Host) : HostM unit := fun h => (Ret tt, f h).

(** [exchange] with an endpoint of the host; the request goes to the same
    trace. *)
Definition hexchange {A} (get : Host -> list (Fetched A))
    (set : list (Fetched A) -> Host -> Host) (req : Request) : HostM A :=
  fun h =>
    let h1 := set_core (set_trace (trace (core h) ++ [req]) (core h)) h in
    match get h with
    | [] => (Throw "Failed to fetch", h1)
    | Rejected reason :: q => (Throw reason, set q h1)
    | Arrived dt a :: q =>
        (Ret a, set_core (set_clock (clock (core h) + dt) (core h1)) (set q h1))
    end.

(** ** [deleteItem] and [readFile] *)

Section Remote.

Variable encodeURI : string -> string.

Definition deleteRequest (config : OneDriveConfig) (token relativePath : string)
  : Request :=
  let fullPath := "/drive/root:" in
  let fullPath :=
    if JS.truthy (remoteBaseFolder config)
    then fullPath +:+ "/" +:+ remoteBaseFolder config
    else fullPath in
  let fullPath := fullPath +:+ "/" +:+ relativePath in
  mkRequest "DELETE" (graphRoot +:+ encodeURI fullPath)
    [("Authorization", "Bearer " +:+ token)] NoBody.

Definition deleteItem (relativePath : string) : HostM unit :=
  token <~ lift getAccessToken ;;
  config <~ hgets (fun h => settings (core h)) ;;
  res <~ hexchange deleteEndpoint set_deleteEndpoint
           (deleteRequest config token relativePath) ;;
  if negb (ok res) then
    hthrow ("Error eliminando item: HTTP " +:+ JS.show (status res))
  else hret tt.

Definition metadataRequest (config : OneDriveConfig) (token relativePath : string)
  : Request :=
  let fullPath := "/drive/root:" in
  let fullPath :=
    if JS.truthy (remoteBaseFolder config)
    then fullPath +:+ "/" +:+ remoteBaseFolder config
    else fullPath in
  let fullPath := fullPath +:+ "/" +:+ relativePath +:+ ":/" in
  mkRequest "GET"
    (graphRoot +:+ encodeURI fullPath +:+ "?select=@microsoft.graph.downloadUrl")
    [("Authorization", "Bearer " +:+ token)] NoBody.

Definition downloadRequest (downloadUrl : string) : Request :=
  mkRequest "GET" downloadUrl [] NoBody.

(** The download is [fetch(downloadUrl).then((r) => r.arrayBuffer())]. *)
Definition readFile (relativePath : string) : HostM (list byte) :=
  token <~ lift getAccessToken ;;
  config <~ hgets (fun h => settings (core h)) ;;
  metaText <~ hexchange metadataEndpoint set_metadataEndpoint
                (metadataRequest config token relativePath) ;;
  meta <~ lift (parsed metaText) ;;
  let downloadUrl := JS.nullish (downloadUrl meta) "" in
  if negb (JS.truthy downloadUrl) then
    hthrow "No se encontró la propiedad @microsoft.graph.downloadUrl."
  else
    r <~ hexchange downloadEndpoint set_downloadEndpoint
           (downloadRequest downloadUrl) ;;
    hret (download_body r).

End Remote.

(** * The rest of the plugin *)

Definition set_periodicSync (v : bool) (c : OneDriveConfig) : OneDriveConfig :=
  mkConfig (clientId c) (authority c) (redirectUri c) (accessToken c)
           (refreshToken c) (accessTokenExpiresAt c) (remoteBaseFolder c)
           (localVaultFolder c) v (syncIntervalMinutes c).

(** [Object.assign({}, defaults, data)]. *)
Definition assignSettings (defaults : OneDriveConfig) (data : option SavedData)
  : OneDriveConfig :=
  match data with
  | None => defaults
  | Some d =>
      mkConfig
        (default (clientId defaults) (saved_clientId d))
        (default (authority defaults) (saved_authority d))
        (default (redirectUri defaults) (saved_redirectUri d))
        (default (accessToken defaults) (saved_accessToken d))
        (default (refreshToken defaults) (saved_refreshToken d))
        (default (accessTokenExpiresAt defaults) (saved_accessTokenExpiresAt d))
        (default (remoteBaseFolder defaults) (saved_remoteBaseFolder d))
        (default (localVaultFolder defaults) (saved_localVaultFolder d))
        (default (periodicSync defaults) (saved_periodicSync d))
        (default (syncIntervalMinutes defaults) (saved_syncIntervalMinutes d))
  end.

(** What [saveData(this.settings)] writes: every key of the settings. *)
Definition dataOf (c : OneDriveConfig) : SavedData :=
  mkSaved (Some (clientId c)) (Some (authority c)) (Some (redirectUri c))
          (Some (accessToken c)) (Some (refreshToken c))
          (Some (accessTokenExpiresAt c)) (Some (remoteBaseFolder c))
          (Some (localVaultFolder c)) (Some (periodicSync c))
          (Some (syncIntervalMinutes c)).

Definition loadSettings : HostM unit :=
  data <~ hgets savedData ;;
  hmodify (fun h => set_core (set_settings (assignSettings DEFAULT_SETTINGS data)
                                (core h)) h).

Definition saveSettings : HostM unit :=
  hmodify (fun h => set_savedData (Some (dataOf (settings (core h)))) h).

(** [window.clearInterval] and [window.setInterval]; a new interval gets
    the next handle. *)
Definition clearInterval (id : Z) : HostM unit :=
  hmodify (fun h =>
    set_intervals (List.filter (fun t => negb (Z.eqb t.1 id)) (intervals h)) h).

Definition setInterval (ms : Z) : HostM Z :=
  fun h =>
    let id := nextIntervalId h in
    (Ret id,
     set_nextIntervalId (id + 1) (set_intervals (intervals h ++ [(id, ms)]) h)).

(** [if (this.syncIntervalId)]: neither [null] nor [0]. *)
Definition handleSet (id : option Z) : bool :=
  match id with Some n => negb (Z.eqb n 0) | None => false end.

Definition setupPeriodicSync : HostM unit :=
  id <~ hgets syncIntervalId ;;
  (if handleSet id then
     clearInterval (default 0 id) ~;;
     hmodify (set_syncIntervalId None)
   else hret tt) ~;;
  config <~ hgets (fun h => settings (core h)) ;;
  if periodicSync config && (0 <? syncIntervalMinutes config)%Z then
    let ms := syncIntervalMinutes config * 60 * 1000 in
    id' <~ setInterval ms ;;
    hmodify (set_syncIntervalId (Some id')) ~;;
    lift (console_log ("Sync periódico configurado cada "
                       +:+ JS.show (syncIntervalMinutes config) +:+ " min."))
  else hret tt.

Definition onUnload : HostM unit :=
  lift (console_log "Descargando plugin OneDrive...") ~;;
  id <~ hgets syncIntervalId ;;
  if handleSet id then clearInterval (default 0 id) else hret tt.

Section Callbacks.

Variable encodeURI : string -> string.

(** What the interval, the [modify] event and the start of [onload] run. *)
Definition syncIfAuthenticated : M unit :=
  authenticated <- isAuthenticated ;;
  if authenticated then syncVault encodeURI else ret tt.

(** The handler of [obsidian://onedrive-auth]; [code] is [params.code]. *)
Definition onAuthCallback (code : option string) : HostM unit :=
  if negb (JS.truthy (JS.nullish code "")) then
    lift (Notice "No se recibió 'code' en callback.")
  else
    htry_catch
      (config <~ hgets (fun h => settings (core h)) ;;
       verifier <~ hgets pkceVerifier ;;
       result <~ lift (exchangeAuthCodeForTokens config (JS.nullish code "")
                         verifier) ;;
       match result with
       | AuthFailure e =>
           lift (Notice ("Error en la autenticación: " +:+ error_description e))
       | AuthSuccess r =>
           lift (modify (fun s =>
                   set_settings (set_accessToken (access_token r) (settings s)) s)) ~;;
           lift (modify (fun s =>
                   set_settings
                     (set_refreshToken (JS.nullish (refresh_token r) "")
                        (settings s)) s)) ~;;
           let expiresInMs := JS.num_or (expires_in r) 3600 * 1000 in
           now <~ lift Date_now ;;
           lift (modify (fun s =>
                   set_settings
                     (set_accessTokenExpiresAt (now + expiresInMs - 120000)
                        (settings s)) s)) ~;;
           saveSettings ~;;
           lift (Notice "¡Autenticación con OneDrive completada!")
       end)
      (fun err =>
         lift (console_log ("Error al canjear el code: " +:+ err)) ~;;
         lift (Notice "Error al finalizar auth. Chequea la consola.")).

End Callbacks.

(** ** The settings tab: the handlers that touch the credential and the
    timer *)

(** [onChange] of the periodic-sync toggle. *)
Definition onPeriodicSyncChange (val : bool) : HostM unit :=
  lift (modify (fun s => set_settings (set_periodicSync val (settings s)) s)) ~;;
  saveSettings ~;;
  setupPeriodicSync.

(** [onClick] of the disconnect button; the tab is drawn again afterwards,
    which changes nothing here. *)
Definition onDisconnect : HostM unit :=
  lift (modify (fun s => set_settings (set_accessToken "" (settings s)) s)) ~;;
  lift (modify (fun s => set_settings (set_refreshToken "" (settings s)) s)) ~;;
  lift (modify (fun s => set_settings (set_accessTokenExpiresAt 0 (settings s)) s)) ~;;
  saveSettings ~;;
  lift (Notice "Desconectado de OneDrive.").

(** * Vocabulary of the properties *)

(** ** Reading the state *)

(** The requests issued between a state and a later one. *)
Definition requestsIssued (s s' : State) : list Request :=
  drop (length (trace s)) (trace s').

(** The guard of [getAccessToken]: the cached token is used as it is. *)
Definition tokenFresh (s : State) : bool :=
  JS.truthy (accessToken (settings s))
  && (clock s <? accessTokenExpiresAt (settings s))%Z.

(** ** The local tree *)

Fixpoint TAbstractFile_induction (P : TAbstractFile -> Prop)
    (Hfile : forall p data, P (TFile p data))
    (Hfolder : forall p children, Forall P children -> P (TFolder p children))
    (f : TAbstractFile) : P f :=
  match f with
  | TFile p data => Hfile p data
  | TFolder p children =>
      Hfolder p children
        ((fix all (cs : list TAbstractFile) : Forall P cs :=
            match cs with
            | [] => List.Forall_nil P
            | c :: cs' =>
                @List.Forall_cons _ P c cs' (TAbstractFile_induction P Hfile Hfolder c) (all cs')
            end) children)
  end.

(** Every node below a folder, each occurrence once, parents before their
    children. *)
Fixpoint descendants (f : TAbstractFile) : list TAbstractFile :=
  match f with
  | TFile _ _ => []
  | TFolder _ children => flat_map (fun c => c :: descendants c) children
  end.

(** [Under n f]: the node [n] lies somewhere below the folder [f]. *)
Inductive Under (n : TAbstractFile) : TAbstractFile -> Prop :=
| Under_child p children :
    In n children -> Under n (TFolder p children)
| Under_deeper p children d :
    In d children -> Under n d -> Under n (TFolder p children).

(** ** Chunked upload *)

(** [ceil(fileSize / chunkSize)]. *)
Definition chunkCount (fileSize chunkSize : Z) : nat :=
  Z.to_nat ((fileSize + chunkSize - 1) / chunkSize).

(** The [k]-th chunk request of an upload, counting from 0: bytes
    [k * chunkSize] to [min ((k + 1) * chunkSize, fileSize) - 1]. *)
Definition nthChunkRequest (chunkSize : Z) (uploadUrl : string)
    (content : list byte) (k : nat) : Request :=
  let fileSize := Z.of_nat (length content) in
  chunkRequest uploadUrl content
    (Z.of_nat k * chunkSize)
    (Z.min (Z.of_nat k * chunkSize + chunkSize) fileSize)
    fileSize.

(** Replies of the upload endpoint, with the time each one takes. *)
Definition answers (rs : list (Z * Response DriveItem))
  : list (Fetched (Response DriveItem)) :=
  map (fun x => Arrived x.1 x.2) rs.

(** A chunk reply the loop goes on from: [resp.ok] and a JSON body. *)
Definition accepted (x : Z * Response DriveItem) : Prop :=
  ok x.2 = true /\ exists item, json x.2 = Some item.

(** A chunk reply that does not name the uploaded item. *)
Definition withoutId (x : Z * Response DriveItem) : Prop :=
  forall item, json x.2 = Some item -> hasId item = false.

Definition elapsed (rs : list (Z * Response DriveItem)) : Z :=
  foldr Z.add 0 (map fst rs).

(** [finalItem] after the replies [rs]: the last item that has an id. *)
Definition finalItemAfter (finalItem : option DriveItem)
    (rs : list (Z * Response DriveItem)) : option DriveItem :=
  fold_left
    (fun acc x =>
       match json x.2 with
       | Some item => if hasId item then Some item else acc
       | None => acc
       end)
    rs finalItem.

Definition bodyBytes (r : Request) : list byte :=
  match body r with Bytes b => b | _ => [] end.

Definition isPut (r : Request) : bool := String.eqb (method r) "PUT".

(** * Scenarios *)

Module Scenario.

Definition config (access refresh : string) (expiresAt : Z) : OneDriveConfig :=
  mkConfig "client-1" "https://login.microsoftonline.com/consumers"
           "obsidian://onedrive-auth" access refresh expiresAt
           "Notes" "MyLocalVault" false 5.

Definition idle (cfg : OneDriveConfig) (now : Z) : State :=
  mkState cfg (Some "OneDrive: Idle") [] [] ∅ now [] [] [] [] [].

Definition granted (access : string) (refresh : option string) : TokenReply :=
  AuthSuccess (mkAuthSuccess "Bearer" 3600 "Files.ReadWrite" access refresh).

Definition invalid_grant : AuthErrorResponse :=
  mkAuthError "invalid_grant" "AADSTS70000: The refresh token has expired.".

(** A valid, unexpired credential. *)
Definition fresh : State := idle (config "at-0" "rt-0" 1000) 10.

(** An expired access token, the token endpoint rotates both tokens. *)
Definition stale : State :=
  set_tokenEndpoint [Arrived 7 (Some (granted "at-1" (Some "rt-1")))]
    (idle (config "at-0" "rt-0" 1000) 2000).

(** An expired access token and no refresh token. *)
Definition staleNoRefreshToken : State := idle (config "at-0" "" 1000) 2000.

(** Nobody has signed in yet: the default settings. *)
Definition signedOut : State := idle DEFAULT_SETTINGS 2000.

(** No access token, though the stored expiry lies in the future. *)
Definition noAccessToken : State :=
  set_tokenEndpoint [Arrived 7 (Some (granted "at-1" (Some "rt-1")))]
    (idle (config "" "rt-0" 1000) 10).

(** An expired access token, the token endpoint refuses the refresh. *)
Definition refused : State :=
  set_tokenEndpoint [Arrived 7 (Some (AuthFailure invalid_grant))]
    (idle (config "at-0" "rt-0" 1000) 2000).

(** An expired access token, the token endpoint answers without a
    refresh token. *)
Definition notRotated : State :=
  set_tokenEndpoint [Arrived 7 (Some (granted "at-1" None))]
    (idle (config "at-0" "rt-0" 1000) 2000).

Definition fullConfig : Auth.OnedriveFullConfig :=
  Auth.mkFullConfig "at-0" "client-1" "https://login.microsoftonline.com/consumers"
    "rt-0" 3600 1000 "" "user" 5000 Auth.skip None.

End Scenario.

Module Tree.

Definition a_md : TAbstractFile := TFile "root/a.md" [Byte.x61].
Definition b_md : TAbstractFile := TFile "root/sub/b.md" [Byte.x62; Byte.x63].
Definition sub : TAbstractFile := TFolder "root/sub" [b_md].
Definition empty : TAbstractFile := TFolder "root/empty" [].
Definition root : TAbstractFile := TFolder "root" [a_md; sub; empty].

Definition files : gmap string TAbstractFile :=
  <["root" := root]> (<["root/a.md" := a_md]> (<["root/sub" := sub]>
    (<["root/sub/b.md" := b_md]> (<["root/empty" := empty]> ∅)))).

Definition state : State :=
  mkState (Scenario.config "at-0" "rt-0" 1000) (Some "OneDrive: Idle") [] []
          files 10 [] [] [] [] [].

End Tree.

Module Transfer.

Definition ten : list byte :=
  [Byte.x30; Byte.x31; Byte.x32; Byte.x33; Byte.x34;
   Byte.x35; Byte.x36; Byte.x37; Byte.x38; Byte.x39].


Definition sessionUrl : string := "https://upload.example/session-1".

Definition session : Fetched (Response SessionData) :=
  Arrived 2 (mkResponse true 200 "" (Some (mkSession (Some sessionUrl)))).

(** 202 Accepted: more bytes expected, no item yet. *)
Definition more : Response DriveItem :=
  mkResponse true 202 "" (Some (Graph.mkDriveItem None "" 0)).

(** 201 Created: the item. *)
Definition created (n : Z) : Response DriveItem :=
  mkResponse true 201 "" (Some (Graph.mkDriveItem (Some "item-1") "a.bin" n)).

Definition unavailable : Response DriveItem := mkResponse false 503 "" None.

Definition start (replies : list (Fetched (Response DriveItem))) : State :=
  set_uploadEndpoint replies (set_sessionEndpoint [session] Scenario.fresh).

(** Ten bytes, every chunk accepted, the last reply is the item. *)
Definition completed : State :=
  start (answers [(1, more); (1, more); (1, created 10)]).

(** Ten bytes, every chunk accepted, no reply names the item. *)
Definition notFinalized : State :=
  start (answers [(1, more); (1, more); (1, more)]).

(** The first chunk is refused. *)
Definition refused : State := start [Arrived 1 unavailable].


(** The vault of [Tree], synchronised from its root: two files, each
    uploaded in one chunk. *)
Definition vaultSync : State :=
  mkState (mkConfig "client-1" "https://login.microsoftonline.com/consumers"
             "obsidian://onedrive-auth" "at-0" "rt-0" 1000 "Notes" "root" false 5)
    (Some "OneDrive: Idle") [] [] Tree.files 10 [] []
    [session; session]
    (answers [(1, created 1); (1, created 2)]) [].

End Transfer.

(** * More vocabulary *)

(** The state once the session reply has been read. *)
Definition afterSession (encodeURI : string -> string) (s1 : State)
    (token relativePath : string) (dt : Z)
    (sessions : list (Fetched (Response SessionData))) : State :=
  set_clock (clock s1 + dt)
    (set_sessionEndpoint sessions
       (set_trace
          (trace s1 ++ [createSessionRequest encodeURI (settings s1) token
                          relativePath]) s1)).

(** * More scenarios *)

Module Outage.

(** An expired access token while the network is down. *)
Definition offline : State :=
  set_tokenEndpoint [Rejected "net::ERR_INTERNET_DISCONNECTED"]
    (Scenario.idle (Scenario.config "at-0" "rt-0" 1000) 2000).

(** An expired access token, a token that lives one minute comes back. *)
Definition shortLived : State :=
  set_tokenEndpoint
    [Arrived 7 (Some (AuthSuccess
                        (mkAuthSuccess "Bearer" 60 "Files.ReadWrite" "at-1"
                           (Some "rt-1"))))]
    (Scenario.idle (Scenario.config "at-0" "rt-0" 1000) 2000).

End Outage.

Module Listing.

Definition items : list DriveItem :=
  [Graph.mkDriveItem (Some "item-1") "a.md" 1;
   Graph.mkDriveItem (Some "item-2") "sub" 0].

(** An expired token, a refresh that succeeds, then the listing. *)
Definition afterRefresh : State :=
  set_listingEndpoint [Arrived 3 (Some (mkListing (Some items)))] Scenario.stale.

End Listing.

Module Refusal.

(** Ten bytes in chunks of four: the first chunk is taken, the second is
    answered 507, a third reply is never asked for. *)
Definition secondRefused : State :=
  Transfer.start
    [Arrived 1 Transfer.more;
     Arrived 1 (mkResponse false 507 "" None);
     Arrived 1 (Transfer.created 10)].

Definition forbidden : Response SessionData :=
  mkResponse false 403 "accessDenied" None.

(** The session request is refused. *)
Definition noSession : State :=
  set_uploadEndpoint [Arrived 1 (Transfer.created 10)]
    (set_sessionEndpoint [Arrived 2 forbidden] Scenario.fresh).

(** The session is created without an upload URL. *)
Definition noUploadUrl : State :=
  set_uploadEndpoint [Arrived 1 (Transfer.created 10)]
    (set_sessionEndpoint
       [Arrived 2 (mkResponse true 200 "" (Some (mkSession None)))]
       Scenario.fresh).

(** The item comes back with the second chunk of three, the last answer
    carries none. *)
Definition early : State :=
  Transfer.start (answers [(1, Transfer.more); (1, Transfer.created 10);
                           (1, Transfer.more)]).

End Refusal.

Module Pass.

(** A vault whose local folder exists and holds nothing but an empty
    subfolder. *)
Definition emptyFolder : State :=
  mkState (Scenario.config "at-0" "rt-0" 1000) (Some "OneDrive: Idle") [] []
          (<["MyLocalVault" := TFolder "MyLocalVault" [TFolder "MyLocalVault/sub" []]]> ∅)
          10 [] [] [] [] [].

(** The vault of [Tree]; the session of the first file is refused, the
    remote side would have taken the second file. *)
Definition firstFileFails : State :=
  mkState (mkConfig "client-1" "https://login.microsoftonline.com/consumers"
             "obsidian://onedrive-auth" "at-0" "rt-0" 1000 "Notes" "root" false 5)
    (Some "OneDrive: Idle") [] [] Tree.files 10 [] []
    [Arrived 2 Refusal.forbidden; Transfer.session]
    (answers [(1, Transfer.created 2)]) [].

Definition blank : TAbstractFile := TFile "root/blank.md" [].

(** A vault that starts with an empty file. *)
Definition blankFirst : State :=
  mkState (mkConfig "client-1" "https://login.microsoftonline.com/consumers"
             "obsidian://onedrive-auth" "at-0" "rt-0" 1000 "Notes" "root" false 5)
    (Some "OneDrive: Idle") [] []
    (<["root" := TFolder "root" [blank; Tree.a_md]]> ∅) 10 [] []
    [Transfer.session; Transfer.session]
    (answers [(1, Transfer.created 1)]) [].

End Pass.

(** The interval the plugin started is the one it holds the handle of,
    and there is no other. *)
Definition timerInvariant (h : Host) : Prop :=
  0 < nextIntervalId h
  /\ match syncIntervalId h with
     | None => intervals h = []
     | Some id => 0 < id < nextIntervalId h /\ exists ms, intervals h = [(id, ms)]
     end.

Module Desk.

(** The plugin as it is loaded: no handle, no interval, nothing saved. *)
Definition loaded (s : State) : Host := mkHost s [] [] [] None "" None [] 1.

(** Periodic sync switched on, every 5 minutes, not set up yet. *)
Definition periodic : Host :=
  loaded (Scenario.idle
            (mkConfig "client-1" "https://login.microsoftonline.com/consumers"
               "obsidian://onedrive-auth" "at-0" "rt-0" 1000 "Notes"
               "MyLocalVault" true 5) 10).

(** An interval is running. *)
Definition running : Host :=
  mkHost (core periodic) [] [] [] None "" (Some 1) [(1, 300000)] 2.

(** Waiting for the callback of the sign-in, the verifier at hand. *)
Definition signingIn (reply : TokenReply) : Host :=
  mkHost (set_tokenEndpoint [Arrived 7 (Some reply)] (Scenario.idle DEFAULT_SETTINGS 50))
         [] [] [] None "verifier-1" None [] 1.

(** A file to read: the metadata name a download URL, the download
    itself is answered 404 with a body. *)
Definition reading : Host :=
  mkHost Scenario.fresh []
         [Arrived 2 (Some (mkMetadata (Some "https://cdn.example/a.md")))]
         [Arrived 4 (mkDownload false 404 [Byte.x3c; Byte.x3e])]
         None "" None [] 1.

Definition noDownloadUrl : Host :=
  mkHost Scenario.fresh []
         [Arrived 2 (Some (mkMetadata None))]
         [Arrived 4 (mkDownload true 200 [Byte.x61])]
         None "" None [] 1.

End Desk.

Module Pkce.

(** A stand-in for [btoa] that pads and uses both special characters. *)
Definition toyBtoa (s : string) : string := "a+/b+==".

End Pkce.

(** * Properties *)

(** ** Reading the state *)

Lemma truthy_false s : JS.truthy s = false <-> s = "".
Proof.
  unfold JS.truthy. rewrite negb_false_iff. apply String.eqb_eq.
Qed.

Lemma truthy_true s : JS.truthy s = true <-> s <> "".
Proof.
  unfold JS.truthy. rewrite negb_true_iff. apply String.eqb_neq.
Qed.

Lemma requestsIssued_app s s' (l : list Request) :
  trace s' = (trace s ++ l)%list -> requestsIssued s s' = l.
Proof.
  unfold requestsIssued. intros ->. by rewrite drop_app_length.
Qed.

Lemma requestsIssued_same s s' :
  trace s' = trace s -> requestsIssued s s' = [].
Proof.
  intros H. apply requestsIssued_app. by rewrite app_nil_r.
Qed.

Ltac unfold_monad :=
  unfold Date_now, Notice, console_log, parsed, try_catch, exchange, bind, ret,
    throw, gets, modify in *;
  cbv beta iota zeta in *.

(** ** Token handling *)

Lemma getAccessToken_fresh s :
  tokenFresh s = true ->
  getAccessToken s = (Ret (accessToken (settings s)), s).
Proof.
  intros H. unfold tokenFresh, getAccessToken in *. unfold_monad. by rewrite H.
Qed.

Lemma getAccessToken_no_refreshToken s :
  tokenFresh s = false ->
  refreshToken (settings s) = "" ->
  getAccessToken s
  = (Throw "No refreshToken. El usuario debe autenticarse primero.", s).
Proof.
  intros H Hr. unfold tokenFresh, getAccessToken, refreshAccessToken in *.
  unfold_monad. rewrite H, Hr. reflexivity.
Qed.

(** Whatever the token endpoint answers, a stale token with a refresh
    token at hand costs exactly one request. *)
Lemma getAccessToken_stale_trace s :
  tokenFresh s = false ->
  refreshToken (settings s) <> "" ->
  trace (getAccessToken s).2 = (trace s ++ [refreshRequest (settings s)])%list.
Proof.
  intros H Hr. unfold tokenFresh, getAccessToken, refreshAccessToken in *.
  unfold_monad. apply truthy_true in Hr. rewrite H, Hr. simpl.
  destruct (tokenEndpoint s) as [|[reason|dt [[r|e]|]] q]; reflexivity.
Qed.

Lemma getAccessToken_failure s dt e q :
  tokenFresh s = false ->
  refreshToken (settings s) <> "" ->
  tokenEndpoint s = Arrived dt (Some (AuthFailure e)) :: q ->
  getAccessToken s
  = (Throw (refreshErrorMessage e),
     set_clock (clock s + dt)
       (set_tokenEndpoint q
          (set_trace (trace s ++ [refreshRequest (settings s)]) s))).
Proof.
  intros H Hr Hq. unfold tokenFresh, getAccessToken, refreshAccessToken in *.
  unfold_monad. apply truthy_true in Hr. rewrite H, Hr. simpl.
  rewrite Hq. reflexivity.
Qed.

Lemma getAccessToken_success s dt r q :
  tokenFresh s = false ->
  refreshToken (settings s) <> "" ->
  tokenEndpoint s = Arrived dt (Some (AuthSuccess r)) :: q ->
  let s' := (getAccessToken s).2 in
  (getAccessToken s).1 = Ret (access_token r)
  /\ accessToken (settings s') = access_token r
  /\ refreshToken (settings s') = JS.nullish (refresh_token r) ""
  /\ accessTokenExpiresAt (settings s')
     = clock s + dt + JS.num_or (expires_in r) 3600 * 1000 - 120000.
Proof.
  intros H Hr Hq. unfold tokenFresh, getAccessToken, refreshAccessToken in *.
  unfold_monad. apply truthy_true in Hr. rewrite H, Hr. simpl.
  rewrite Hq. simpl. done.
Qed.

Lemma tokenFresh_true s :
  tokenFresh s = true
  <-> accessToken (settings s) <> "" /\ clock s < accessTokenExpiresAt (settings s).
Proof.
  unfold tokenFresh. rewrite andb_true_iff, truthy_true, Z.ltb_lt. tauto.
Qed.

Lemma tokenFresh_false s :
  tokenFresh s = false
  <-> accessToken (settings s) = "" \/ accessTokenExpiresAt (settings s) <= clock s.
Proof.
  unfold tokenFresh. rewrite andb_false_iff, truthy_false, Z.ltb_ge. tauto.
Qed.

(** C3, as amended.  [getAccessToken] issues no request and returns the
    cached access token, leaving the state as it is, when the access token
    is non-empty and [now < accessTokenExpiresAt].  Otherwise (the access
    token is empty or [now >= accessTokenExpiresAt]) it issues exactly one
    refresh-token request when the refresh token is non-empty, and fails
    without any request when the refresh token is empty. *)
Theorem getAccessToken_refresh_requests (s : State) :
  (accessToken (settings s) <> "" /\ clock s < accessTokenExpiresAt (settings s) ->
     getAccessToken s = (Ret (accessToken (settings s)), s)
     /\ requestsIssued s (getAccessToken s).2 = [])
  /\ (accessToken (settings s) = "" \/ accessTokenExpiresAt (settings s) <= clock s ->
      refreshToken (settings s) <> "" ->
      requestsIssued s (getAccessToken s).2 = [refreshRequest (settings s)])
  /\ (accessToken (settings s) = "" \/ accessTokenExpiresAt (settings s) <= clock s ->
      refreshToken (settings s) = "" ->
      requestsIssued s (getAccessToken s).2 = []
      /\ (getAccessToken s).1
         = Throw "No refreshToken. El usuario debe autenticarse primero.").
Proof.
  split; [|split].
  - intros H. apply tokenFresh_true in H.
    rewrite (getAccessToken_fresh s H). split; [done|].
    by apply requestsIssued_same.
  - intros H Hr. apply tokenFresh_false in H.
    apply requestsIssued_app. by apply getAccessToken_stale_trace.
  - intros H Hr. apply tokenFresh_false in H.
    rewrite (getAccessToken_no_refreshToken s H Hr). split; [|done].
    by apply requestsIssued_same.
Qed.

Lemma getAccessToken_refresh_requests_witness :
  getAccessToken Scenario.fresh = (Ret "at-0", Scenario.fresh)
  /\ requestsIssued Scenario.stale (getAccessToken Scenario.stale).2
     = [refreshRequest (settings Scenario.stale)]
  /\ (getAccessToken Scenario.staleNoRefreshToken).1
     = Throw "No refreshToken. El usuario debe autenticarse primero.".
Proof.
  split; [|split].
  - apply (proj1 (getAccessToken_refresh_requests Scenario.fresh)).
    split; [discriminate | reflexivity].
  - apply (proj1 (proj2 (getAccessToken_refresh_requests Scenario.stale))).
    + right. discriminate.
    + discriminate.
  - apply (proj2 (proj2 (getAccessToken_refresh_requests Scenario.staleNoRefreshToken))).
    + right. discriminate.
    + reflexivity.
Defined.

(** C3 as stated fails in both directions: with an empty access token a
    refresh request is sent although [now < accessTokenExpiresAt], and with
    an empty refresh token, as in the default settings, none is sent
    although [now >= accessTokenExpiresAt]. *)
Lemma refresh_count_as_stated_fails :
  ~ (clock Scenario.noAccessToken
       < accessTokenExpiresAt (settings Scenario.noAccessToken) ->
     requestsIssued Scenario.noAccessToken
       (getAccessToken Scenario.noAccessToken).2 = []
     /\ (getAccessToken Scenario.noAccessToken).1
        = Ret (accessToken (settings Scenario.noAccessToken)))
  /\ ~ (clock Scenario.signedOut
          >= accessTokenExpiresAt (settings Scenario.signedOut) ->
        length (requestsIssued Scenario.signedOut
                  (getAccessToken Scenario.signedOut).2) = 1%nat).
Proof.
  split; intros H.
  - destruct H as [H _]; [reflexivity|]. vm_compute in H. discriminate.
  - assert (H' := H ltac:(vm_compute; discriminate)).
    vm_compute in H'. discriminate.
Qed.

(** C4.  When the token endpoint answers a refresh with an error envelope,
    [getAccessToken] throws an error whose message carries the remote
    [error_description] (the [error] code when the description is empty),
    and the stored settings, hence [accessToken], [refreshToken] and
    [accessTokenExpiresAt], are what they were. *)
Theorem getAccessToken_error_keeps_credential
    (s : State) (dt : Z) (e : AuthErrorResponse)
    (q : list (Fetched (option TokenReply))) :
  accessToken (settings s) = "" \/ accessTokenExpiresAt (settings s) <= clock s ->
  refreshToken (settings s) <> "" ->
  tokenEndpoint s = Arrived dt (Some (AuthFailure e)) :: q ->
  (getAccessToken s).1
  = Throw ("Refresh token error: "
           +:+ (if String.eqb (error_description e) "" then error e
                else error_description e))
  /\ settings (getAccessToken s).2 = settings s
  /\ requestsIssued s (getAccessToken s).2 = [refreshRequest (settings s)].
Proof.
  intros H Hr Hq. apply tokenFresh_false in H.
  rewrite (getAccessToken_failure s dt e q H Hr Hq). simpl.
  split; [|split].
  - unfold refreshErrorMessage, JS.or_else, JS.truthy.
    by destruct (String.eqb (error_description e) "").
  - reflexivity.
  - by apply requestsIssued_app.
Qed.

Lemma getAccessToken_error_keeps_credential_witness :
  (getAccessToken Scenario.refused).1
  = Throw "Refresh token error: AADSTS70000: The refresh token has expired."
  /\ settings (getAccessToken Scenario.refused).2 = settings Scenario.refused
  /\ requestsIssued Scenario.refused (getAccessToken Scenario.refused).2
     = [refreshRequest (settings Scenario.refused)].
Proof.
  apply (getAccessToken_error_keeps_credential Scenario.refused 7
           Scenario.invalid_grant []).
  - right. discriminate.
  - discriminate.
  - reflexivity.
Defined.

(** C5, as amended.  On a successful refresh whose response omits
    [refresh_token], the stored [refreshToken] becomes the empty string;
    a [refresh_token] that is present replaces the stored one.
    [setConfigBySuccessfulAuthInplace] stores the empty string as well. *)
Theorem refresh_without_refresh_token_clears
    (s : State) (dt : Z) (r : AuthSuccessResponse)
    (q : list (Fetched (option TokenReply))) :
  accessToken (settings s) = "" \/ accessTokenExpiresAt (settings s) <= clock s ->
  refreshToken (settings s) <> "" ->
  tokenEndpoint s = Arrived dt (Some (AuthSuccess r)) :: q ->
  (getAccessToken s).1 = Ret (access_token r)
  /\ (refresh_token r = None ->
      refreshToken (settings (getAccessToken s).2) = "")
  /\ (forall t, refresh_token r = Some t ->
      refreshToken (settings (getAccessToken s).2) = t)
  /\ (refresh_token r = None ->
      forall config save s0 config' s0',
        Auth.setConfigBySuccessfulAuthInplace config r save s0 = (Ret config', s0') ->
        Auth.refreshToken config' = "").
Proof.
  intros H Hr Hq. apply tokenFresh_false in H.
  destruct (getAccessToken_success s dt r q H Hr Hq) as (Hres & _ & Hrt & _).
  split; [done|]. split; [|split].
  - intros Hn. by rewrite Hrt, Hn.
  - intros t Ht. by rewrite Hrt, Ht.
  - intros Hn config save s0 config' s0'.
    unfold Auth.setConfigBySuccessfulAuthInplace. unfold_monad.
    rewrite Hn. simpl.
    destruct save as [save|].
    + destruct (save _) as [[[]|msg|] s1]; intros [= <- <-] || discriminate.
      reflexivity.
    + intros [= <- <-]. reflexivity.
Qed.

Lemma refresh_without_refresh_token_clears_witness :
  (getAccessToken Scenario.notRotated).1 = Ret "at-1"
  /\ refreshToken (settings (getAccessToken Scenario.notRotated).2) = ""
  /\ Auth.refreshToken Scenario.fullConfig = "rt-0"
  /\ forall config' s',
       Auth.setConfigBySuccessfulAuthInplace Scenario.fullConfig
         (mkAuthSuccess "Bearer" 3600 "Files.ReadWrite" "at-1" None) None
         Scenario.fresh = (Ret config', s') ->
       Auth.refreshToken config' = "".
Proof.
  destruct (refresh_without_refresh_token_clears Scenario.notRotated 7
              (mkAuthSuccess "Bearer" 3600 "Files.ReadWrite" "at-1" None) [])
    as (H1 & H2 & _ & H4).
  - right. discriminate.
  - discriminate.
  - reflexivity.
  - split; [exact H1|]. split; [exact (H2 eq_refl)|]. split; [reflexivity|].
    intros config' s'. apply (H4 eq_refl).
Defined.

(** C5 as stated fails: the refresh succeeds, the response has no
    [refresh_token], and the stored refresh token ["rt-0"] is not kept. *)
Lemma refresh_token_not_kept :
  refreshToken (settings Scenario.notRotated) = "rt-0"
  /\ tokenEndpoint Scenario.notRotated
     = [Arrived 7 (Some (Scenario.granted "at-1" None))]
  /\ (getAccessToken Scenario.notRotated).1 = Ret "at-1"
  /\ refreshToken (settings (getAccessToken Scenario.notRotated).2)
     <> refreshToken (settings Scenario.notRotated).
Proof.
  repeat split. vm_compute. discriminate.
Qed.

(** ** Listing *)

(** [getAccessToken] neither reads nor writes the listing endpoint. *)
Lemma getAccessToken_listingEndpoint l s :
  getAccessToken (set_listingEndpoint l s)
  = ((getAccessToken s).1, set_listingEndpoint l (getAccessToken s).2).
Proof.
  unfold getAccessToken, refreshAccessToken. unfold_monad. simpl.
  destruct (JS.truthy (accessToken (settings s)) && _); [reflexivity|].
  destruct (negb (JS.truthy (refreshToken (settings s)))); [reflexivity|].
  simpl. destruct (tokenEndpoint s) as [|[reason|dt [[r|e]|]] q]; reflexivity.
Qed.

Lemma getAccessToken_listingEndpoint_after l s :
  listingEndpoint (getAccessToken (set_listingEndpoint l s)).2 = l.
Proof.
  rewrite getAccessToken_listingEndpoint. reflexivity.
Qed.

(** C10.  When the listing request is answered (a 2xx reply) with a JSON
    body that has no [value] field, [listRemoteFolder] returns the empty
    list, and the whole outcome, result and state, is the one of the same
    run with [value: []]. *)
Theorem listRemoteFolder_missing_value
    (s : State) (dt : Z) (q : list (Fetched (option ListingEnvelope)))
    (token : string) (s1 : State) :
  let missing := set_listingEndpoint (Arrived dt (Some (mkListing None)) :: q) s in
  let empty := set_listingEndpoint (Arrived dt (Some (mkListing (Some []))) :: q) s in
  getAccessToken missing = (Ret token, s1) ->
  (listRemoteFolder missing).1 = Ret []
  /\ listRemoteFolder missing = listRemoteFolder empty.
Proof.
  intros missing empty. subst missing empty.
  rewrite getAccessToken_listingEndpoint. intros [= Hres Hs1].
  unfold listRemoteFolder. unfold_monad.
  rewrite !getAccessToken_listingEndpoint.
  destruct (getAccessToken s) as [res s'] eqn:E. simpl in *. subst res.
  done.
Qed.

Lemma listRemoteFolder_missing_value_witness :
  (listRemoteFolder
     (set_listingEndpoint [Arrived 3 (Some (mkListing None))] Scenario.fresh)).1
  = Ret [].
Proof.
  apply (listRemoteFolder_missing_value Scenario.fresh 3 [] "at-0"
           (set_listingEndpoint [Arrived 3 (Some (mkListing None))] Scenario.fresh)).
  reflexivity.
Defined.

(** ** The plugin *)

(** A whole pass on the vault of [Tree]: both files are uploaded under
    their paths relative to the local root, in traversal order. *)
Lemma syncVault_tree :
  let out := syncVault (fun p => p) Transfer.vaultSync in
  out.1 = Ret tt
  /\ notices out.2 = ["Sync completado. Subidos 2 archivos."]
  /\ statusBarEl out.2 = Some "OneDrive: Idle"
  /\ map (fun r => (method r, url r)) (trace out.2)
     = [("POST", "https://graph.microsoft.com/v1.0/drive/root:/Notes/a.md:/createUploadSession");
        ("PUT", Transfer.sessionUrl);
        ("POST", "https://graph.microsoft.com/v1.0/drive/root:/Notes/sub/b.md:/createUploadSession");
        ("PUT", Transfer.sessionUrl)].
Proof. vm_compute. done. Qed.

(** C7.  When the access token or the refresh token of the settings is
    empty, [syncVault] only shows the notice that the user is not
    authenticated: it issues no request, consumes no reply, leaves the
    credential and the status bar as they are, and returns. *)
Theorem syncVault_unauthenticated (encodeURI : string -> string) (s : State) :
  accessToken (settings s) = "" \/ refreshToken (settings s) = "" ->
  syncVault encodeURI s
  = (Ret tt, set_notices (notices s ++ ["No estás autenticado en OneDrive."]) s)
  /\ requestsIssued s (syncVault encodeURI s).2 = []
  /\ statusBarEl (syncVault encodeURI s).2 = statusBarEl s
  /\ settings (syncVault encodeURI s).2 = settings s.
Proof.
  intros H.
  assert (E : syncVault encodeURI s
              = (Ret tt,
                 set_notices (notices s ++ ["No estás autenticado en OneDrive."]) s)).
  { unfold syncVault, isAuthenticated. unfold_monad.
    destruct H as [H|H]; rewrite H; simpl; [reflexivity|].
    by rewrite andb_false_r. }
  rewrite E. simpl. split; [done|]. split; [|done].
  by apply requestsIssued_same.
Qed.

Lemma syncVault_unauthenticated_witness :
  syncVault (fun p => p) Scenario.staleNoRefreshToken
  = (Ret tt,
     set_notices ["No estás autenticado en OneDrive."] Scenario.staleNoRefreshToken).
Proof.
  apply (syncVault_unauthenticated (fun p => p) Scenario.staleNoRefreshToken).
  right. reflexivity.
Defined.

(** ** The local tree *)

Lemma descendants_Under n f : In n (descendants f) <-> Under n f.
Proof.
  induction f as [p data|p children IH] using TAbstractFile_induction; simpl.
  - split; [tauto | inversion 1].
  - rewrite in_flat_map. split.
    + intros (c & Hc & [->|Hn]).
      * by apply Under_child.
      * apply Under_deeper with c; [done|].
        rewrite Forall_forall in IH. apply IH; [|done].
        by apply list_elem_of_In.
    + inversion 1 as [p' cs Hin|p' cs d Hin Hd]; subst.
      * exists n. split; [done | by left].
      * exists d. split; [done|]. right.
        rewrite Forall_forall in IH. apply IH; [|done].
        by apply list_elem_of_In.
Qed.

(** [recurse] appends to [result] the file nodes below [f], in the order of
    [descendants]. *)
Lemma recurse_spec f : forall result,
  recurse f result = (result ++ List.filter isTFile (descendants f))%list.
Proof.
  induction f as [p data|p children IH] using TAbstractFile_induction;
    intros result; simpl.
  - by rewrite app_nil_r.
  - revert result. induction IH as [|c cs Hc _ IHcs]; intros result; simpl.
    + by rewrite app_nil_r.
    + rewrite IHcs. destruct c as [q data|q cs'].
      * simpl. by rewrite <- app_assoc.
      * rewrite Hc. cbn [isTFile]. by rewrite List.filter_app, app_assoc.
Qed.

Lemma getAllFilesInFolder_folder s folderPath p children :
  vault s !! folderPath = Some (TFolder p children) ->
  getAllFilesInFolder folderPath s
  = (Ret (List.filter isTFile (descendants (TFolder p children))), s).
Proof.
  intros H. unfold getAllFilesInFolder, getAbstractFileByPath. unfold_monad.
  rewrite H. by rewrite recurse_spec.
Qed.

Lemma getAllFilesInFolder_no_folder s folderPath :
  (vault s !! folderPath = None
   \/ exists p data, vault s !! folderPath = Some (TFile p data)) ->
  getAllFilesInFolder folderPath s = (Ret [], s).
Proof.
  intros H. unfold getAllFilesInFolder, getAbstractFileByPath. unfold_monad.
  destruct H as [->|(p & data & ->)]; reflexivity.
Qed.

Lemma NoDup_map_filter {A B} (f : A -> B) (keep : A -> bool) (l : list A) :
  NoDup (map f l) -> NoDup (map f (List.filter keep l)).
Proof.
  induction l as [|x l IH]; simpl; [done|].
  rewrite NoDup_cons. intros [Hx Hl].
  destruct (keep x); simpl; [|by apply IH].
  apply NoDup_cons. split; [|by apply IH].
  intros Hin. apply Hx.
  apply list_elem_of_In in Hin. apply list_elem_of_In.
  apply in_map_iff in Hin as (y & <- & Hy).
  apply in_map. apply List.filter_In in Hy. tauto.
Qed.

(** C9.  For a root folder found in the vault, [getAllFilesInFolder]
    returns, without touching the state, the file nodes among the nodes
    below the root, one entry per occurrence and in traversal order: every
    entry is a file, a node is an entry exactly when it is a file below the
    root, and distinct paths in the tree give distinct paths in the result.
    Folders, empty ones included, are never entries. *)
Theorem getAllFilesInFolder_files_once
    (s : State) (folderPath p : string) (children : list TAbstractFile) :
  vault s !! folderPath = Some (TFolder p children) ->
  exists result,
    getAllFilesInFolder folderPath s = (Ret result, s)
    /\ result = List.filter isTFile (descendants (TFolder p children))
    /\ Forall (fun n => isTFile n = true) result
    /\ (forall n, In n result <-> isTFile n = true /\ Under n (TFolder p children))
    /\ (NoDup (map path (descendants (TFolder p children))) ->
        NoDup (map path result)).
Proof.
  intros H. eexists. split; [by apply getAllFilesInFolder_folder|].
  split; [reflexivity|]. split; [|split].
  - apply Forall_forall. intros n Hn.
    apply list_elem_of_In, List.filter_In in Hn. tauto.
  - intros n. rewrite List.filter_In, descendants_Under. tauto.
  - apply NoDup_map_filter.
Qed.

Lemma getAllFilesInFolder_files_once_witness :
  getAllFilesInFolder "root" Tree.state = (Ret [Tree.a_md; Tree.b_md], Tree.state)
  /\ NoDup (map path [Tree.a_md; Tree.b_md]).
Proof.
  destruct (getAllFilesInFolder_files_once Tree.state "root" "root"
              [Tree.a_md; Tree.sub; Tree.empty])
    as (result & Hrun & -> & _ & _ & Hnodup).
  - vm_compute. reflexivity.
  - split; [exact Hrun|]. apply Hnodup.
    by apply (bool_decide_unpack _).
Defined.

(** ** The guard on the local root *)

Lemma withStatus_updateStatusBar status s :
  updateStatusBar status s = (Ret tt, withStatus status s).
Proof. reflexivity. Qed.

Lemma authenticated_true s :
  accessToken (settings s) <> "" -> refreshToken (settings s) <> "" ->
  isAuthenticated s = (Ret true, s).
Proof.
  intros Ha Hr. unfold isAuthenticated, gets.
  apply truthy_true in Ha, Hr. by rewrite Ha, Hr.
Qed.

(** C8, as amended.  [getAllFilesInFolder] never fails: it returns the
    empty list when the root path is not in the vault or is a file, and
    also when the root is a folder with no file below it.  A missing or
    non-folder root is reported by [syncVault], before it enumerates: it
    shows the notice that the local folder does not exist, sets the status
    to the local-folder error, and returns without any request. *)
Theorem getAllFilesInFolder_invalid_root (encodeURI : string -> string) (s : State) :
  (forall folderPath,
     (vault s !! folderPath = None
      \/ exists p data, vault s !! folderPath = Some (TFile p data)) ->
     getAllFilesInFolder folderPath s = (Ret [], s))
  /\ (forall folderPath p children,
        vault s !! folderPath = Some (TFolder p children) ->
        (forall n, Under n (TFolder p children) -> isTFile n = false) ->
        getAllFilesInFolder folderPath s = (Ret [], s))
  /\ (accessToken (settings s) <> "" -> refreshToken (settings s) <> "" ->
      (vault s !! localVaultFolder (settings s) = None
       \/ exists p data,
            vault s !! localVaultFolder (settings s) = Some (TFile p data)) ->
      syncVault encodeURI s
      = (Ret tt,
         withStatus "Error: no local folder"
           (set_notices
              (notices s ++ ["Carpeta local '" +:+ localVaultFolder (settings s)
                             +:+ "' no existe en el Vault."])
              (withStatus "Syncing..." s)))
      /\ requestsIssued s (syncVault encodeURI s).2 = []).
Proof.
  split; [|split].
  - intros folderPath H. by apply getAllFilesInFolder_no_folder.
  - intros folderPath p children H Hnone.
    rewrite (getAllFilesInFolder_folder s folderPath p children H).
    f_equal. f_equal.
    assert (Hall : forall n, In n (descendants (TFolder p children)) ->
                             isTFile n = false).
    { intros n Hn. apply Hnone. by apply descendants_Under. }
    induction (descendants (TFolder p children)) as [|x l IH]; [done|].
    simpl. rewrite (Hall x) by (by left). apply IH.
    intros n Hn. apply Hall. by right.
  - intros Ha Hr Hroot.
    assert (E : syncVault encodeURI s
      = (Ret tt,
         withStatus "Error: no local folder"
           (set_notices
              (notices s ++ ["Carpeta local '" +:+ localVaultFolder (settings s)
                             +:+ "' no existe en el Vault."])
              (withStatus "Syncing..." s)))).
    { unfold syncVault, isAuthenticated, getAbstractFileByPath, updateStatusBar,
        withStatus.
      unfold_monad. apply truthy_true in Ha, Hr. rewrite Ha, Hr.
      destruct s as [cfg sb ns cs v c te le se ue tr]; simpl in *.
      destruct sb; simpl; destruct Hroot as [->|(p & data & ->)]; reflexivity. }
    rewrite E. split; [done|]. apply requestsIssued_same.
    destruct s as [cfg [sb|] ns cs v c te le se ue tr]; reflexivity.
Qed.

Lemma getAllFilesInFolder_invalid_root_witness :
  getAllFilesInFolder "root/missing" Tree.state = (Ret [], Tree.state)
  /\ getAllFilesInFolder "root/a.md" Tree.state = (Ret [], Tree.state)
  /\ getAllFilesInFolder "root/empty" Tree.state = (Ret [], Tree.state)
  /\ syncVault (fun p => p) Scenario.fresh
     = (Ret tt,
        mkState (settings Scenario.fresh)
          (Some "OneDrive: Error: no local folder")
          ["Carpeta local 'MyLocalVault' no existe en el Vault."]
          [] ∅ 10 [] [] [] [] []).
Proof.
  destruct (getAllFilesInFolder_invalid_root (fun p => p) Tree.state)
    as (Hmissing & Hempty & _).
  destruct (getAllFilesInFolder_invalid_root (fun p => p) Scenario.fresh)
    as (_ & _ & Hsync).
  split; [|split; [|split]].
  - apply Hmissing. left. vm_compute. reflexivity.
  - apply Hmissing. right. exists "root/a.md", [Byte.x61]. vm_compute. reflexivity.
  - apply (Hempty "root/empty" "root/empty" []).
    + vm_compute. reflexivity.
    + intros n Hn. inversion Hn as [p cs Hin|p cs d Hin Hd]; inversion Hin.
  - apply Hsync.
    + discriminate.
    + discriminate.
    + left. vm_compute. reflexivity.
Defined.

(** C8 as stated fails for the enumeration itself: at a root path that is
    not in the vault [getAllFilesInFolder] does not throw. *)
Lemma missing_root_does_not_throw :
  ~ (vault Tree.state !! "root/missing" = None ->
     exists msg s', getAllFilesInFolder "root/missing" Tree.state = (Throw msg, s')).
Proof.
  intros H. destruct H as (msg & s' & H); [vm_compute; reflexivity|].
  vm_compute in H. discriminate.
Qed.

(** ** Chunked upload *)

Section ChunkArithmetic.

Variables fileSize chunkSize : Z.
Hypothesis chunkSize_pos : 0 < chunkSize.
Hypothesis fileSize_nonneg : 0 <= fileSize.

Lemma chunkCount_lt (k : nat) :
  (k < chunkCount fileSize chunkSize)%nat <-> Z.of_nat k * chunkSize < fileSize.
Proof.
  unfold chunkCount.
  pose proof (Z.div_mod (fileSize + chunkSize - 1) chunkSize ltac:(lia)) as Hdm.
  pose proof (Z.mod_pos_bound (fileSize + chunkSize - 1) chunkSize chunkSize_pos)
    as Hmod.
  set (q := (fileSize + chunkSize - 1) / chunkSize) in *.
  set (r := (fileSize + chunkSize - 1) mod chunkSize) in *.
  assert (0 <= q) by nia.
  split; intros Hk.
  - assert (Z.of_nat k + 1 <= q) by lia. nia.
  - assert (Z.of_nat k < q) by nia. lia.
Qed.

Lemma chunkCount_le_fileSize :
  Z.of_nat (chunkCount fileSize chunkSize) <= fileSize.
Proof.
  destruct (chunkCount fileSize chunkSize) as [|n] eqn:E; [lia|].
  assert (Hlt : (n < chunkCount fileSize chunkSize)%nat) by lia.
  apply chunkCount_lt in Hlt. nia.
Qed.

End ChunkArithmetic.

Section UploadLoop.

Variables (chunkSize : Z) (uploadUrl : string) (content : list byte).
Hypothesis chunkSize_pos : 0 < chunkSize.

Let fileSize : Z := Z.of_nat (length content).

Lemma uploadLoop_unfold fuel offset finalItem :
  uploadLoop fuel chunkSize uploadUrl content fileSize offset finalItem
  = if (offset <? fileSize)%Z then
      match fuel with
      | O => fun s => (OutOfFuel, s)
      | S fuel' =>
          let chunkEnd := Z.min (offset + chunkSize) fileSize in
          resp <- exchange uploadEndpoint set_uploadEndpoint
                    (chunkRequest uploadUrl content offset chunkEnd fileSize) ;;
          if negb (ok resp) then
            throw ("Error subiendo chunk. HTTP " +:+ JS.show (status resp))
          else
            rjson <- parsed (json resp) ;;
            let finalItem := if hasId rjson then Some rjson else finalItem in
            uploadLoop fuel' chunkSize uploadUrl content fileSize chunkEnd finalItem
      end
    else ret finalItem.
Proof. destruct fuel; reflexivity. Qed.

(** The loop on an endpoint that accepts the chunks that remain. *)
Lemma uploadLoop_accepted rs : forall k fuel finalItem s rest,
  (k + length rs)%nat = chunkCount fileSize chunkSize ->
  (length rs <= fuel)%nat ->
  Forall accepted rs ->
  uploadEndpoint s = (answers rs ++ rest)%list ->
  uploadLoop fuel chunkSize uploadUrl content fileSize
    (Z.min (Z.of_nat k * chunkSize) fileSize) finalItem s
  = (Ret (finalItemAfter finalItem rs),
     set_clock (clock s + elapsed rs)
       (set_uploadEndpoint rest
          (set_trace
             (trace s ++ map (nthChunkRequest chunkSize uploadUrl content)
                           (seq k (length rs))) s))).
Proof.
  assert (Hsize : 0 <= fileSize) by (unfold fileSize; lia).
  induction rs as [|[dt r] rs IH]; intros k fuel finalItem s rest Hk Hfuel Hok Hq.
  - simpl in *. rewrite Nat.add_0_r in Hk.
    assert (Hge : ~ Z.of_nat k * chunkSize < fileSize).
    { rewrite <- (chunkCount_lt fileSize chunkSize chunkSize_pos Hsize). lia. }
    rewrite Z.min_r by lia. rewrite uploadLoop_unfold, Z.ltb_irrefl.
    unfold ret, elapsed. simpl. f_equal.
    destruct s; simpl in *; subst.
    unfold set_clock, set_uploadEndpoint, set_trace. simpl.
    by rewrite Z.add_0_r, app_nil_r.
  - simpl in Hk, Hfuel.
    assert (Hlt : Z.of_nat k * chunkSize < fileSize).
    { rewrite <- (chunkCount_lt fileSize chunkSize chunkSize_pos Hsize). lia. }
    rewrite Z.min_l by lia.
    destruct fuel as [|fuel]; [lia|].
    rewrite uploadLoop_unfold.
    rewrite (proj2 (Z.ltb_lt _ _) Hlt). cbv zeta.
    apply Forall_cons in Hok as [[Hr (item & Hitem)] Hok]. simpl in Hr, Hitem.
    unfold bind at 1. unfold exchange. rewrite Hq. simpl.
    rewrite Hr. simpl. unfold bind at 1. rewrite Hitem. simpl.
    replace (Z.of_nat k * chunkSize + chunkSize)
      with (Z.of_nat (S k) * chunkSize) by lia.
    rewrite (IH (S k) fuel _ _ rest); [|lia|lia|done|reflexivity].
    f_equal.
    destruct s; simpl in *.
    unfold set_clock, set_uploadEndpoint, set_trace, elapsed. simpl.
    f_equal; [lia|].
    rewrite <- app_assoc. simpl. do 2 f_equal.
    unfold nthChunkRequest. fold fileSize.
    by replace (Z.of_nat (S k) * chunkSize)
      with (Z.of_nat k * chunkSize + chunkSize) by lia.
Qed.

(** Whatever the endpoint answers, fuel for [fileSize - offset]
    iterations is enough. *)
Lemma uploadLoop_total fuel : forall offset finalItem s,
  fileSize - offset <= Z.of_nat fuel ->
  (uploadLoop fuel chunkSize uploadUrl content fileSize offset finalItem s).1
  <> OutOfFuel.
Proof.
  induction fuel as [|fuel IH]; intros offset finalItem s Hfuel;
    rewrite uploadLoop_unfold;
    destruct (offset <? fileSize)%Z eqn:Hlt; try discriminate.
  - apply Z.ltb_lt in Hlt. lia.
  - apply Z.ltb_lt in Hlt. cbv zeta. unfold bind at 1. unfold exchange.
    destruct (uploadEndpoint s) as [|[reason|dt r] q]; try discriminate.
    destruct (ok r); simpl; [|discriminate].
    unfold bind at 1. destruct (json r) as [item|]; simpl; [|discriminate].
    apply IH. lia.
Qed.

End UploadLoop.

Section UploadFile.

Variable encodeURI : string -> string.
Variables (chunkSize : Z) (sessionUrl : string) (content : list byte).
Hypothesis chunkSize_pos : 0 < chunkSize.

Let fileSize : Z := Z.of_nat (length content).



(** [uploadFile] when the token is at hand, the session is created and
    the upload endpoint accepts every chunk. *)
Lemma uploadFileWith_accepted fuel relativePath s token s1 dt sessionResp
    sessions rs rest :
  getAccessToken s = (Ret token, s1) ->
  sessionEndpoint s1 = Arrived dt sessionResp :: sessions ->
  ok sessionResp = true ->
  json sessionResp = Some (mkSession (Some sessionUrl)) ->
  sessionUrl <> "" ->
  length rs = chunkCount fileSize chunkSize ->
  (length rs <= fuel)%nat ->
  Forall accepted rs ->
  uploadEndpoint s1 = (answers rs ++ rest)%list ->
  uploadFileWith encodeURI chunkSize fuel relativePath content s
  = (match finalItemAfter None rs with
     | Some item => Ret item
     | None => Throw "No se obtuvo DriveItem final tras la subida."
     end,
     set_clock (clock s1 + dt + elapsed rs)
       (set_uploadEndpoint rest
          (set_sessionEndpoint sessions
             (set_trace
                (trace s1
                 ++ createSessionRequest encodeURI (settings s1) token relativePath
                 :: map (nthChunkRequest chunkSize sessionUrl content)
                      (seq 0 (length rs)))
                s1)))).
Proof.
  intros Htoken Hsession Hok Hjson Hurl Hlen Hfuel Hrs Hq.
  unfold uploadFileWith. unfold bind at 1. rewrite Htoken.
  unfold bind at 1. unfold gets. unfold bind at 1. unfold exchange.
  rewrite Hsession, Hok. cbn [negb].
  unfold bind at 1. rewrite Hjson. unfold parsed, ret. cbn [JS.nullish uploadUrl].
  apply truthy_true in Hurl. rewrite Hurl. cbn [negb].
  unfold bind at 1.
  change 0 with (Z.of_nat 0 * chunkSize).
  rewrite <- (Z.min_l (Z.of_nat 0 * chunkSize) (Z.of_nat (length content)))
    by lia.
  erewrite (uploadLoop_accepted chunkSize sessionUrl content chunkSize_pos rs
              0 fuel None _ rest); [|done|done|done|by destruct s1].
  destruct s1; simpl.
  destruct (finalItemAfter None rs);
    unfold throw, set_clock, set_uploadEndpoint, set_sessionEndpoint, set_trace;
    simpl; rewrite <- app_assoc; reflexivity.
Qed.

End UploadFile.

Lemma finalItemAfter_withoutId rs :
  Forall withoutId rs -> finalItemAfter None rs = None.
Proof.
  unfold finalItemAfter.
  induction 1 as [|x rs Hx _ IH]; simpl; [done|].
  destruct (json x.2) as [item|] eqn:E; [|done].
  by rewrite (Hx item E).
Qed.

Lemma uploadFile_fuel (content : list byte) :
  (chunkCount (Z.of_nat (length content)) CHUNK_SIZE <= length content)%nat.
Proof.
  pose proof (chunkCount_le_fileSize (Z.of_nat (length content)) CHUNK_SIZE
                ltac:(reflexivity) ltac:(lia)).
  lia.
Qed.

(** [uploadFile] always comes to an end. *)
Lemma uploadFile_total encodeURI relativePath content s :
  (uploadFile encodeURI relativePath content s).1 <> OutOfFuel.
Proof.
  unfold uploadFile, uploadFileWith.
  unfold bind at 1.
  destruct (getAccessToken s) as [[token|msg|] s1] eqn:Htoken; simpl.
  - unfold bind at 1. unfold gets. unfold bind at 1. unfold exchange.
    destruct (sessionEndpoint s1) as [|[reason|dt r] q]; try discriminate.
    destruct (ok r); simpl; [|discriminate].
    unfold bind at 1. destruct (json r) as [d|]; simpl; [|discriminate].
    destruct (negb _); [discriminate|].
    unfold bind at 1.
    match goal with
    | |- context [uploadLoop ?f ?c ?u ?b ?n ?o ?i ?st] =>
        pose proof (uploadLoop_total c u b ltac:(reflexivity) f o i st
                      ltac:(lia)) as Hloop;
        destruct (uploadLoop f c u b n o i st) as [[[item|]|msg|] s2]
    end; simpl in *; congruence.
  - discriminate.
  - exfalso. revert Htoken.
    unfold getAccessToken, refreshAccessToken. unfold_monad.
    destruct (JS.truthy _ && _); [discriminate|].
    destruct (negb _); [discriminate|].
    simpl. destruct (tokenEndpoint s) as [|[reason|dt [[r|e]|]] q]; discriminate.
Qed.

(** The example of the specification: 12 MiB in chunks of 5 MiB. *)
Lemma contentRange_12MiB :
  chunkCount 12582912 CHUNK_SIZE = 3%nat
  /\ map (fun k => contentRange (Z.of_nat k * CHUNK_SIZE)
                    (Z.min (Z.of_nat k * CHUNK_SIZE + CHUNK_SIZE) 12582912)
                    12582912)
         (seq 0 3)
     = ["bytes 0-5242879/12582912";
        "bytes 5242880-10485759/12582912";
        "bytes 10485760-12582911/12582912"].
Proof. split; vm_compute; reflexivity. Qed.

Lemma isPut_session encodeURI config token relativePath :
  isPut (createSessionRequest encodeURI config token relativePath) = false.
Proof. reflexivity. Qed.

Lemma filter_isPut_chunks chunkSize sessionUrl content (l : list nat) :
  List.filter isPut (map (nthChunkRequest chunkSize sessionUrl content) l)
  = map (nthChunkRequest chunkSize sessionUrl content) l.
Proof.
  induction l as [|k l IH]; [done|].
  cbn [map List.filter]. rewrite IH. reflexivity.
Qed.




(** C6.  When every chunk, the final one included, is answered with an ok
    JSON response and none of these bodies carries an item id,
    [uploadFile] throws the error that no final item was obtained after
    the upload, instead of returning an item. *)
Theorem uploadFile_not_finalized
    (encodeURI : string -> string) (chunkSize : Z) (fuel : nat)
    (relativePath : string) (content : list byte)
    (s s1 : State) (token sessionUrl : string) (dt : Z)
    (sessionResp : Response SessionData)
    (sessions : list (Fetched (Response SessionData)))
    (rs : list (Z * Response DriveItem))
    (rest : list (Fetched (Response DriveItem))) :
  0 < chunkSize ->
  (chunkCount (Z.of_nat (length content)) chunkSize <= fuel)%nat ->
  getAccessToken s = (Ret token, s1) ->
  sessionEndpoint s1 = Arrived dt sessionResp :: sessions ->
  ok sessionResp = true ->
  json sessionResp = Some (mkSession (Some sessionUrl)) ->
  sessionUrl <> "" ->
  length rs = chunkCount (Z.of_nat (length content)) chunkSize ->
  Forall accepted rs ->
  Forall withoutId rs ->
  uploadEndpoint s1 = (answers rs ++ rest)%list ->
  (uploadFileWith encodeURI chunkSize fuel relativePath content s).1
  = Throw "No se obtuvo DriveItem final tras la subida.".
Proof.
  intros Hpos Hfuel Htoken Hsession Hok Hjson Hurl Hlen Hrs Hnone Hq.
  rewrite (uploadFileWith_accepted encodeURI chunkSize sessionUrl content Hpos
             fuel relativePath s token s1 dt sessionResp sessions rs rest)
    by (try done; lia).
  by rewrite finalItemAfter_withoutId.
Qed.

Lemma uploadFile_not_finalized_witness :
  (uploadFile (fun p => p) "a.bin" Transfer.ten
     (Transfer.start (answers [(1, Transfer.more)]))).1
  = Throw "No se obtuvo DriveItem final tras la subida."
  /\ (uploadFileWith (fun p => p) 4 3 "a.bin" Transfer.ten Transfer.notFinalized).1
     = Throw "No se obtuvo DriveItem final tras la subida.".
Proof.
  split.
  - apply (uploadFile_not_finalized (fun p => p) CHUNK_SIZE 10 "a.bin" Transfer.ten
             (Transfer.start (answers [(1, Transfer.more)]))
             (Transfer.start (answers [(1, Transfer.more)]))
             "at-0" Transfer.sessionUrl 2
             (mkResponse true 200 "" (Some (mkSession (Some Transfer.sessionUrl))))
             [] [(1, Transfer.more)] []).
    + reflexivity.
    + vm_compute. lia.
    + reflexivity.
    + reflexivity.
    + reflexivity.
    + reflexivity.
    + discriminate.
    + reflexivity.
    + repeat constructor; by eexists.
    + repeat constructor. intros item [= <-]. reflexivity.
    + reflexivity.
  - apply (uploadFile_not_finalized (fun p => p) 4 3 "a.bin" Transfer.ten
             Transfer.notFinalized Transfer.notFinalized
             "at-0" Transfer.sessionUrl 2
             (mkResponse true 200 "" (Some (mkSession (Some Transfer.sessionUrl))))
             [] [(1, Transfer.more); (1, Transfer.more); (1, Transfer.more)] []).
    + reflexivity.
    + vm_compute. lia.
    + reflexivity.
    + reflexivity.
    + reflexivity.
    + reflexivity.
    + discriminate.
    + reflexivity.
    + repeat constructor; by eexists.
    + repeat constructor; intros item [= <-]; reflexivity.
    + reflexivity.
Defined.

(** C2, on the code.  For an empty buffer, with the token at hand and the
    session created, [uploadFile] issues the session request and no chunk
    request at all, and throws the error that no final item was obtained. *)
Theorem uploadFile_empty_buffer
    (encodeURI : string -> string) (relativePath : string)
    (s s1 : State) (token sessionUrl : string) (dt : Z)
    (sessionResp : Response SessionData)
    (sessions : list (Fetched (Response SessionData))) :
  getAccessToken s = (Ret token, s1) ->
  sessionEndpoint s1 = Arrived dt sessionResp :: sessions ->
  ok sessionResp = true ->
  json sessionResp = Some (mkSession (Some sessionUrl)) ->
  sessionUrl <> "" ->
  let s' := (uploadFile encodeURI relativePath [] s).2 in
  (uploadFile encodeURI relativePath [] s).1
  = Throw "No se obtuvo DriveItem final tras la subida."
  /\ requestsIssued s1 s'
     = [createSessionRequest encodeURI (settings s1) token relativePath]
  /\ List.filter isPut (requestsIssued s1 s') = []
  /\ uploadEndpoint s' = uploadEndpoint s1.
Proof.
  intros Htoken Hsession Hok Hjson Hurl s'. subst s'. unfold uploadFile.
  rewrite (uploadFileWith_accepted encodeURI CHUNK_SIZE sessionUrl []
             ltac:(reflexivity) (length (@nil byte)) relativePath s token s1 dt
             sessionResp sessions [] (uploadEndpoint s1)); try done.
  simpl.
  assert (Hissued :
    requestsIssued s1
      (set_clock (clock s1 + dt + elapsed [])
         (set_uploadEndpoint (uploadEndpoint s1)
            (set_sessionEndpoint sessions
               (set_trace
                  (trace s1
                   ++ [createSessionRequest encodeURI (settings s1) token
                         relativePath]) s1))))
    = [createSessionRequest encodeURI (settings s1) token relativePath]).
  { apply requestsIssued_app. by destruct s1. }
  rewrite Hissued. split; [done|]. split; [done|]. split; [reflexivity|].
  by destruct s1.
Qed.

Lemma uploadFile_empty_buffer_witness :
  (uploadFile (fun p => p) "empty.md" [] (Transfer.start [])).1
  = Throw "No se obtuvo DriveItem final tras la subida."
  /\ List.filter isPut
       (requestsIssued (Transfer.start [])
          (uploadFile (fun p => p) "empty.md" [] (Transfer.start [])).2) = [].
Proof.
  destruct (uploadFile_empty_buffer (fun p => p) "empty.md"
              (Transfer.start []) (Transfer.start []) "at-0" Transfer.sessionUrl 2
              (mkResponse true 200 "" (Some (mkSession (Some Transfer.sessionUrl))))
              [])
    as (Hres & _ & Hputs & _).
  - reflexivity.
  - reflexivity.
  - reflexivity.
  - reflexivity.
  - discriminate.
  - split; [exact Hres | exact Hputs].
Defined.

(** * Further properties *)

(** ** The credential *)

Ltac token_cases s :=
  unfold getAccessToken, refreshAccessToken; unfold_monad;
  destruct (JS.truthy (accessToken (settings s))
            && (clock s <? accessTokenExpiresAt (settings s))%Z);
  [|destruct (negb (JS.truthy (refreshToken (settings s))));
    [|simpl; destruct (tokenEndpoint s) as [|[?reason|?dt [[?r|?e]|]] ?q]]];
  simpl.

(** X1.  However [getAccessToken] fails (no refresh token, the request is
    rejected, the answer is not JSON, the answer is an error envelope), the
    settings are what they were, and at most one request was sent. *)
Theorem getAccessToken_throw_keeps_settings (s s' : State) (msg : string) :
  getAccessToken s = (Throw msg, s') ->
  settings s' = settings s
  /\ (requestsIssued s s' = []
      \/ requestsIssued s s' = [refreshRequest (settings s)]).
Proof.
  revert s' msg. token_cases s; intros s' msg [= <- <-] || intros s' msg [=];
    (split; [reflexivity|]);
    first [ left; by apply requestsIssued_same
          | right; by apply requestsIssued_app ].
Qed.

Lemma getAccessToken_throw_keeps_settings_witness :
  settings (getAccessToken Outage.offline).2 = settings Outage.offline
  /\ requestsIssued Outage.offline (getAccessToken Outage.offline).2
     = [refreshRequest (settings Outage.offline)].
Proof.
  destruct (getAccessToken_throw_keeps_settings Outage.offline
              (getAccessToken Outage.offline).2
              "net::ERR_INTERNET_DISCONNECTED") as [Hs Hr].
  - reflexivity.
  - split; [exact Hs | reflexivity].
Defined.

(** X2.  [getAccessToken] writes nothing but the three credential fields:
    the other settings, the status bar, the notices, the console, the
    vault and the replies of the listing, session and upload endpoints
    are the same after any call. *)
Theorem getAccessToken_frame (s : State) :
  let s' := (getAccessToken s).2 in
  clientId (settings s') = clientId (settings s)
  /\ authority (settings s') = authority (settings s)
  /\ redirectUri (settings s') = redirectUri (settings s)
  /\ remoteBaseFolder (settings s') = remoteBaseFolder (settings s)
  /\ localVaultFolder (settings s') = localVaultFolder (settings s)
  /\ periodicSync (settings s') = periodicSync (settings s)
  /\ syncIntervalMinutes (settings s') = syncIntervalMinutes (settings s)
  /\ statusBarEl s' = statusBarEl s
  /\ notices s' = notices s
  /\ console s' = console s
  /\ vault s' = vault s
  /\ listingEndpoint s' = listingEndpoint s
  /\ sessionEndpoint s' = sessionEndpoint s
  /\ uploadEndpoint s' = uploadEndpoint s.
Proof.
  token_cases s; repeat split.
Qed.

Lemma getAccessToken_success_state s dt r q :
  tokenFresh s = false ->
  refreshToken (settings s) <> "" ->
  tokenEndpoint s = Arrived dt (Some (AuthSuccess r)) :: q ->
  getAccessToken s
  = (Ret (access_token r),
     set_settings
       (set_accessTokenExpiresAt
          (clock s + dt + JS.num_or (expires_in r) 3600 * 1000 - 120000)
          (set_refreshToken (JS.nullish (refresh_token r) "")
             (set_accessToken (access_token r) (settings s))))
       (set_clock (clock s + dt)
          (set_tokenEndpoint q
             (set_trace (trace s ++ [refreshRequest (settings s)]) s)))).
Proof.
  intros H Hr Hq. unfold tokenFresh, getAccessToken, refreshAccessToken in *.
  unfold_monad. apply truthy_true in Hr. rewrite H, Hr. simpl.
  rewrite Hq. reflexivity.
Qed.

(** X3.  After a successful refresh the new token is served from the
    cache, with no further request, exactly when it is non-empty and lives
    longer than the two minutes of margin ([expires_in] of 0 counting as
    3600 seconds); a token of 120 seconds or less is stale as soon as it
    is stored. *)
Theorem getAccessToken_refresh_then_cached
    (s : State) (dt : Z) (r : AuthSuccessResponse)
    (q : list (Fetched (option TokenReply))) :
  accessToken (settings s) = "" \/ accessTokenExpiresAt (settings s) <= clock s ->
  refreshToken (settings s) <> "" ->
  tokenEndpoint s = Arrived dt (Some (AuthSuccess r)) :: q ->
  let s' := (getAccessToken s).2 in
  (access_token r <> "" /\ 120 < JS.num_or (expires_in r) 3600 ->
   getAccessToken s' = (Ret (access_token r), s'))
  /\ (access_token r = "" \/ JS.num_or (expires_in r) 3600 <= 120 ->
      tokenFresh s' = false).
Proof.
  intros H Hr Hq s'. apply tokenFresh_false in H. subst s'.
  rewrite (getAccessToken_success_state s dt r q H Hr Hq). cbn [snd].
  split.
  - intros [Ha Hlong].
    rewrite getAccessToken_fresh; [reflexivity|].
    apply tokenFresh_true. simpl. split; [done|lia].
  - intros Hshort. apply tokenFresh_false. simpl.
    destruct Hshort as [Ha|Hshort]; [by left | right; lia].
Qed.

Lemma getAccessToken_refresh_then_cached_witness :
  getAccessToken (getAccessToken Scenario.stale).2
  = (Ret "at-1", (getAccessToken Scenario.stale).2)
  /\ tokenFresh (getAccessToken Outage.shortLived).2 = false.
Proof.
  split.
  - apply (getAccessToken_refresh_then_cached Scenario.stale 7
             (mkAuthSuccess "Bearer" 3600 "Files.ReadWrite" "at-1" (Some "rt-1")) []).
    + right. discriminate.
    + discriminate.
    + reflexivity.
    + split; [discriminate | reflexivity].
  - apply (getAccessToken_refresh_then_cached Outage.shortLived 7
             (mkAuthSuccess "Bearer" 60 "Files.ReadWrite" "at-1" (Some "rt-1")) []).
    + right. discriminate.
    + discriminate.
    + reflexivity.
    + right. discriminate.
Defined.

(** X4.  A refresh that succeeds without a [refresh_token] in the answer
    signs the plugin out: the next [syncVault] finds no refresh token,
    shows the notice that the user is not authenticated and sends
    nothing, although the access token just obtained is valid. *)
Theorem refresh_without_refresh_token_signs_out
    (encodeURI : string -> string)
    (s : State) (dt : Z) (r : AuthSuccessResponse)
    (q : list (Fetched (option TokenReply))) :
  accessToken (settings s) = "" \/ accessTokenExpiresAt (settings s) <= clock s ->
  refreshToken (settings s) <> "" ->
  tokenEndpoint s = Arrived dt (Some (AuthSuccess r)) :: q ->
  refresh_token r = None ->
  let s' := (getAccessToken s).2 in
  isAuthenticated s' = (Ret false, s')
  /\ syncVault encodeURI s'
     = (Ret tt, set_notices (notices s' ++ ["No estás autenticado en OneDrive."]) s')
  /\ requestsIssued s' (syncVault encodeURI s').2 = [].
Proof.
  intros H Hr Hq Hnone s'. apply tokenFresh_false in H.
  assert (Hempty : refreshToken (settings s') = "").
  { subst s'. rewrite (getAccessToken_success_state s dt r q H Hr Hq).
    simpl. by rewrite Hnone. }
  assert (Hauth : isAuthenticated s' = (Ret false, s')).
  { unfold isAuthenticated, gets. rewrite Hempty. simpl.
    by rewrite andb_false_r. }
  split; [exact Hauth|].
  assert (E : syncVault encodeURI s'
              = (Ret tt,
                 set_notices (notices s' ++ ["No estás autenticado en OneDrive."]) s')).
  { unfold syncVault. unfold bind at 1. rewrite Hauth. reflexivity. }
  rewrite E. split; [reflexivity|]. by apply requestsIssued_same.
Qed.

Lemma refresh_without_refresh_token_signs_out_witness :
  isAuthenticated Scenario.notRotated = (Ret true, Scenario.notRotated)
  /\ isAuthenticated (getAccessToken Scenario.notRotated).2
     = (Ret false, (getAccessToken Scenario.notRotated).2).
Proof.
  split; [reflexivity|].
  apply (refresh_without_refresh_token_signs_out (fun p => p) Scenario.notRotated 7
           (mkAuthSuccess "Bearer" 3600 "Files.ReadWrite" "at-1" None) []).
  - right. discriminate.
  - discriminate.
  - reflexivity.
  - reflexivity.
Defined.

(** ** Listing with a refreshed token *)

(** X5.  When the cached token is stale and the refresh succeeds,
    [listRemoteFolder] sends two requests, the refresh and then the
    listing, and the listing carries the access token just received, not
    the cached one; the items of the answer are returned. *)
Theorem listRemoteFolder_uses_refreshed_token
    (s : State) (dt dt' : Z) (r : AuthSuccessResponse)
    (q : list (Fetched (option TokenReply)))
    (items : list DriveItem) (q' : list (Fetched (option ListingEnvelope))) :
  accessToken (settings s) = "" \/ accessTokenExpiresAt (settings s) <= clock s ->
  refreshToken (settings s) <> "" ->
  tokenEndpoint s = Arrived dt (Some (AuthSuccess r)) :: q ->
  listingEndpoint s = Arrived dt' (Some (mkListing (Some items))) :: q' ->
  (listRemoteFolder s).1 = Ret items
  /\ requestsIssued s (listRemoteFolder s).2
     = [refreshRequest (settings s);
        mkRequest "GET"
          (graphRoot
           +:+ (if JS.truthy (remoteBaseFolder (settings s))
                then "/drive/root:/" +:+ remoteBaseFolder (settings s) +:+ ":/children"
                else "/drive/root/children"))
          [("Authorization", "Bearer " +:+ access_token r)] NoBody].
Proof.
  intros H Hr Hq Hl. apply tokenFresh_false in H.
  assert (E : exists s', listRemoteFolder s = (Ret items, s')
    /\ trace s' = ((trace s ++ [refreshRequest (settings s)])
                   ++ [listRequest (settings s) (access_token r)])%list).
  { unfold listRemoteFolder. unfold bind at 1.
    rewrite (getAccessToken_success_state s dt r q H Hr Hq).
    unfold_monad. simpl. rewrite Hl. simpl. eexists. split; reflexivity. }
  destruct E as (s' & -> & Htrace). split; [reflexivity|].
  apply requestsIssued_app. simpl. by rewrite Htrace, <- app_assoc.
Qed.

Lemma listRemoteFolder_uses_refreshed_token_witness :
  (listRemoteFolder Listing.afterRefresh).1 = Ret Listing.items
  /\ map headers (requestsIssued Listing.afterRefresh
                    (listRemoteFolder Listing.afterRefresh).2)
     = [[("Content-Type", "application/x-www-form-urlencoded")];
        [("Authorization", "Bearer at-1")]].
Proof.
  destruct (listRemoteFolder_uses_refreshed_token Listing.afterRefresh 7 3
              (mkAuthSuccess "Bearer" 3600 "Files.ReadWrite" "at-1" (Some "rt-1"))
              [] Listing.items []) as [Hres Hreq].
  - right. discriminate.
  - discriminate.
  - reflexivity.
  - reflexivity.
  - split; [exact Hres|]. rewrite Hreq. reflexivity.
Defined.

(** ** Uploads that do not go through *)

Section UploadPrefix.

Variables (chunkSize : Z) (sessionUrl : string) (content : list byte).
Hypothesis chunkSize_pos : 0 < chunkSize.

Let fileSize : Z := Z.of_nat (length content).

(** The loop over the chunks an endpoint accepts, up to any point of the
    upload: it goes on from there with what the endpoint says next. *)
Lemma uploadLoop_prefix rs : forall k fuel finalItem s rest,
  (k + length rs <= chunkCount fileSize chunkSize)%nat ->
  Forall accepted rs ->
  uploadEndpoint s = (answers rs ++ rest)%list ->
  uploadLoop (length rs + fuel) chunkSize sessionUrl content fileSize
    (Z.min (Z.of_nat k * chunkSize) fileSize) finalItem s
  = uploadLoop fuel chunkSize sessionUrl content fileSize
      (Z.min (Z.of_nat (k + length rs) * chunkSize) fileSize)
      (finalItemAfter finalItem rs)
      (set_clock (clock s + elapsed rs)
         (set_uploadEndpoint rest
            (set_trace
               (trace s ++ map (nthChunkRequest chunkSize sessionUrl content)
                             (seq k (length rs))) s))).
Proof.
  assert (Hsize : 0 <= fileSize) by (unfold fileSize; lia).
  induction rs as [|[dt r] rs IH]; intros k fuel finalItem s rest Hk Hok Hq.
  - simpl in *. rewrite Nat.add_0_r. f_equal.
    destruct s; simpl in *; subst.
    unfold set_clock, set_uploadEndpoint, set_trace, elapsed. simpl.
    by rewrite Z.add_0_r, app_nil_r.
  - simpl in Hk.
    assert (Hlt : Z.of_nat k * chunkSize < fileSize).
    { rewrite <- (chunkCount_lt fileSize chunkSize chunkSize_pos Hsize). lia. }
    rewrite Z.min_l by lia.
    cbn [length Nat.add].
    rewrite uploadLoop_unfold. fold fileSize.
    rewrite (proj2 (Z.ltb_lt _ _) Hlt). cbv zeta.
    apply Forall_cons in Hok as [[Hr (item & Hitem)] Hok]. simpl in Hr, Hitem.
    unfold bind at 1. unfold exchange. rewrite Hq. simpl.
    rewrite Hr. simpl. unfold bind at 1. rewrite Hitem. simpl.
    replace (Z.of_nat k * chunkSize + chunkSize)
      with (Z.of_nat (S k) * chunkSize) by lia.
    rewrite (IH (S k) fuel _ _ rest); [|lia|done|reflexivity].
    replace (S k + length rs)%nat with (k + S (length rs))%nat by lia.
    f_equal.
    destruct s; simpl in *.
    unfold set_clock, set_uploadEndpoint, set_trace, elapsed. simpl.
    f_equal; [lia|].
    rewrite <- app_assoc. simpl. do 2 f_equal.
    unfold nthChunkRequest. fold fileSize.
    by replace (Z.of_nat (S k) * chunkSize)
      with (Z.of_nat k * chunkSize + chunkSize) by lia.
Qed.

End UploadPrefix.

Lemma uploadFileWith_session encodeURI chunkSize fuel relativePath content
    s token s1 dt sessionResp sessions sessionUrl :
  getAccessToken s = (Ret token, s1) ->
  sessionEndpoint s1 = Arrived dt sessionResp :: sessions ->
  ok sessionResp = true ->
  json sessionResp = Some (mkSession (Some sessionUrl)) ->
  sessionUrl <> "" ->
  uploadFileWith encodeURI chunkSize fuel relativePath content s
  = (finalItem <- uploadLoop fuel chunkSize sessionUrl content
                    (Z.of_nat (length content)) 0 None ;;
     match finalItem with
     | None => throw "No se obtuvo DriveItem final tras la subida."
     | Some item => ret item
     end) (afterSession encodeURI s1 token relativePath dt sessions).
Proof.
  intros Htoken Hsession Hok Hjson Hurl.
  unfold uploadFileWith. unfold bind at 1. rewrite Htoken.
  unfold bind at 1. unfold gets. unfold bind at 1. unfold exchange.
  rewrite Hsession, Hok. cbn [negb].
  unfold bind at 1. rewrite Hjson. unfold parsed, ret. cbn [JS.nullish uploadUrl].
  apply truthy_true in Hurl. rewrite Hurl. cbn [negb]. reflexivity.
Qed.

(** X6.  When the upload endpoint takes the first [j] chunks and answers
    the next one with a status that is not ok, [uploadFile] throws the
    chunk error with that status.  Exactly [j + 1] chunk requests were
    sent, the refused one being the last, and the replies after the
    refusal are not consumed: nothing is retried and nothing further is
    sent. *)
Theorem uploadFile_chunk_refused
    (encodeURI : string -> string) (chunkSize : Z) (fuel : nat)
    (relativePath : string) (content : list byte)
    (s s1 : State) (token sessionUrl : string) (dt : Z)
    (sessionResp : Response SessionData)
    (sessions : list (Fetched (Response SessionData)))
    (rs : list (Z * Response DriveItem)) (dt' : Z) (refusal : Response DriveItem)
    (rest : list (Fetched (Response DriveItem))) :
  0 < chunkSize ->
  getAccessToken s = (Ret token, s1) ->
  sessionEndpoint s1 = Arrived dt sessionResp :: sessions ->
  ok sessionResp = true ->
  json sessionResp = Some (mkSession (Some sessionUrl)) ->
  sessionUrl <> "" ->
  Forall accepted rs ->
  (length rs < chunkCount (Z.of_nat (length content)) chunkSize)%nat ->
  (length rs < fuel)%nat ->
  uploadEndpoint s1 = (answers rs ++ Arrived dt' refusal :: rest)%list ->
  ok refusal = false ->
  let out := uploadFileWith encodeURI chunkSize fuel relativePath content s in
  out.1 = Throw ("Error subiendo chunk. HTTP " +:+ JS.show (status refusal))
  /\ List.filter isPut (requestsIssued s1 out.2)
     = map (nthChunkRequest chunkSize sessionUrl content) (seq 0 (S (length rs)))
  /\ uploadEndpoint out.2 = rest.
Proof.
  intros Hpos Htoken Hsession Hok Hjson Hurl Hrs Hlen Hfuel Hq Hrefused out.
  assert (Hsize : 0 <= Z.of_nat (length content)) by lia.
  assert (E : exists s',
    out = (Throw ("Error subiendo chunk. HTTP " +:+ JS.show (status refusal)), s')
    /\ uploadEndpoint s' = rest
    /\ trace s'
       = (trace s1
          ++ createSessionRequest encodeURI (settings s1) token relativePath
          :: map (nthChunkRequest chunkSize sessionUrl content)
               (seq 0 (S (length rs))))%list).
  { subst out.
    rewrite (uploadFileWith_session encodeURI chunkSize fuel relativePath content
               s token s1 dt sessionResp sessions sessionUrl) by done.
    unfold bind at 1.
    replace fuel with (length rs + S (fuel - S (length rs)))%nat by lia.
    change 0 with (Z.of_nat 0 * chunkSize).
    rewrite <- (Z.min_l (Z.of_nat 0 * chunkSize) (Z.of_nat (length content)))
      by lia.
    rewrite (uploadLoop_prefix chunkSize sessionUrl content Hpos rs 0 _ None _
               (Arrived dt' refusal :: rest));
      [|simpl; lia|done|by destruct s1].
    assert (Hlt : Z.of_nat (0 + length rs) * chunkSize < Z.of_nat (length content)).
    { rewrite <- (chunkCount_lt _ chunkSize Hpos Hsize). simpl. lia. }
    rewrite Z.min_l by lia.
    rewrite uploadLoop_unfold.
    rewrite (proj2 (Z.ltb_lt _ _) Hlt). cbv zeta.
    unfold bind at 1. unfold exchange. cbn [uploadEndpoint set_clock set_uploadEndpoint].
    rewrite Hrefused. cbn [negb]. unfold throw.
    eexists. split; [reflexivity|]. split; [by destruct s1|].
    rewrite seq_S, map_app. destruct s1; cbn -[seq].
    rewrite <- !app_assoc. reflexivity. }
  destruct E as (s' & -> & Hrest & Htrace). cbn [fst snd].
  split; [reflexivity|]. split; [|exact Hrest].
  rewrite (requestsIssued_app s1 s' _ Htrace). cbn [List.filter].
  rewrite isPut_session. apply filter_isPut_chunks.
Qed.

Lemma uploadFile_chunk_refused_witness :
  let out := uploadFileWith (fun p => p) 4 3 "a.bin" Transfer.ten
               Refusal.secondRefused in
  out.1 = Throw "Error subiendo chunk. HTTP 507"
  /\ map (fun r => headers r) (List.filter isPut (requestsIssued Refusal.secondRefused out.2))
     = [[("Content-Type", "application/octet-stream");
         ("Content-Range", "bytes 0-3/10")];
        [("Content-Type", "application/octet-stream");
         ("Content-Range", "bytes 4-7/10")]]
  /\ uploadEndpoint out.2 = [Arrived 1 (Transfer.created 10)].
Proof.
  destruct (uploadFile_chunk_refused (fun p => p) 4 3 "a.bin" Transfer.ten
              Refusal.secondRefused Refusal.secondRefused "at-0"
              Transfer.sessionUrl 2
              (mkResponse true 200 "" (Some (mkSession (Some Transfer.sessionUrl))))
              [] [(1, Transfer.more)] 1 (mkResponse false 507 "" None)
              [Arrived 1 (Transfer.created 10)])
    as (Hres & Hputs & Hrest).
  - reflexivity.
  - reflexivity.
  - reflexivity.
  - reflexivity.
  - reflexivity.
  - discriminate.
  - repeat constructor; by eexists.
  - vm_compute. lia.
  - simpl. lia.
  - reflexivity.
  - reflexivity.
  - split; [exact Hres|]. split; [|exact Hrest].
    rewrite Hputs. reflexivity.
Defined.

(** X7.  When the upload session cannot be used, because the session
    request is answered with a status that is not ok, or because the
    answer has no [uploadUrl] (or an empty one), [uploadFile] throws
    after the session request alone: no chunk is sent and no reply of the
    upload endpoint is consumed.  The error of a refused session carries
    the status and the body of the answer. *)
Theorem uploadFile_no_session
    (encodeURI : string -> string) (chunkSize : Z) (fuel : nat)
    (relativePath : string) (content : list byte)
    (s s1 : State) (token : string) (dt : Z)
    (sessionResp : Response SessionData)
    (sessions : list (Fetched (Response SessionData))) :
  getAccessToken s = (Ret token, s1) ->
  sessionEndpoint s1 = Arrived dt sessionResp :: sessions ->
  ok sessionResp = false
  \/ (exists d, json sessionResp = Some d
                /\ (uploadUrl d = None \/ uploadUrl d = Some "")) ->
  let out := uploadFileWith encodeURI chunkSize fuel relativePath content s in
  out.1
  = Throw (if ok sessionResp then "No se obtuvo uploadUrl de la sesión."
           else "Error al crear UploadSession: " +:+ JS.show (status sessionResp)
                +:+ " - " +:+ text sessionResp)
  /\ requestsIssued s1 out.2
     = [createSessionRequest encodeURI (settings s1) token relativePath]
  /\ uploadEndpoint out.2 = uploadEndpoint s1.
Proof.
  intros Htoken Hsession Hbad out.
  assert (E : out
    = (Throw (if ok sessionResp then "No se obtuvo uploadUrl de la sesión."
              else "Error al crear UploadSession: " +:+ JS.show (status sessionResp)
                   +:+ " - " +:+ text sessionResp),
       afterSession encodeURI s1 token relativePath dt sessions)).
  { subst out. unfold uploadFileWith. unfold bind at 1. rewrite Htoken.
    unfold bind at 1. unfold gets. unfold bind at 1. unfold exchange.
    rewrite Hsession. fold (afterSession encodeURI s1 token relativePath dt sessions).
    destruct (ok sessionResp) eqn:Hok; cbn [negb]; [|reflexivity].
    destruct Hbad as [Hbad|(d & Hjson & Hurl)]; [discriminate|].
    unfold bind at 1. rewrite Hjson. unfold parsed, ret.
    destruct Hurl as [->| ->]; reflexivity. }
  rewrite E. cbn [fst snd]. split; [reflexivity|].
  split; [|by destruct s1].
  apply requestsIssued_app. by destruct s1.
Qed.

Lemma uploadFile_no_session_witness :
  (uploadFile (fun p => p) "a.bin" Transfer.ten Refusal.noSession).1
  = Throw "Error al crear UploadSession: 403 - accessDenied"
  /\ (uploadFile (fun p => p) "a.bin" Transfer.ten Refusal.noUploadUrl).1
     = Throw "No se obtuvo uploadUrl de la sesión."
  /\ uploadEndpoint
       (uploadFile (fun p => p) "a.bin" Transfer.ten Refusal.noUploadUrl).2
     = [Arrived 1 (Transfer.created 10)].
Proof.
  destruct (uploadFile_no_session (fun p => p) CHUNK_SIZE 10 "a.bin" Transfer.ten
              Refusal.noSession Refusal.noSession "at-0" 2 Refusal.forbidden [])
    as (H1 & _ & _).
  { reflexivity. } { reflexivity. } { left. reflexivity. }
  destruct (uploadFile_no_session (fun p => p) CHUNK_SIZE 10 "a.bin" Transfer.ten
              Refusal.noUploadUrl Refusal.noUploadUrl "at-0" 2
              (mkResponse true 200 "" (Some (mkSession None))) [])
    as (H2 & _ & H3).
  { reflexivity. } { reflexivity. }
  { right. exists (mkSession None). split; [reflexivity | by left]. }
  split; [exact H1|]. split; [exact H2 | exact H3].
Defined.

Lemma length_chunk_body chunkSize sessionUrl (content : list byte) (k : nat) :
  0 < chunkSize ->
  length (bodyBytes (nthChunkRequest chunkSize sessionUrl content k))
  = Z.to_nat (Z.min (Z.of_nat k * chunkSize + chunkSize) (Z.of_nat (length content))
              - Z.of_nat k * chunkSize).
Proof.
  intros Hpos.
  unfold bodyBytes, nthChunkRequest, chunkRequest, JS.subarray. simpl.
  rewrite length_take, length_drop. lia.
Qed.

(** X8.  In an upload whose chunks are all accepted, no chunk body is
    empty and none is longer than the chunk size; every chunk but the
    last has exactly the chunk size. *)
Theorem uploadFile_chunk_sizes
    (encodeURI : string -> string) (chunkSize : Z) (fuel : nat)
    (relativePath : string) (content : list byte)
    (s s1 : State) (token sessionUrl : string) (dt : Z)
    (sessionResp : Response SessionData)
    (sessions : list (Fetched (Response SessionData)))
    (rs : list (Z * Response DriveItem))
    (rest : list (Fetched (Response DriveItem))) :
  0 < chunkSize ->
  (chunkCount (Z.of_nat (length content)) chunkSize <= fuel)%nat ->
  getAccessToken s = (Ret token, s1) ->
  sessionEndpoint s1 = Arrived dt sessionResp :: sessions ->
  ok sessionResp = true ->
  json sessionResp = Some (mkSession (Some sessionUrl)) ->
  sessionUrl <> "" ->
  length rs = chunkCount (Z.of_nat (length content)) chunkSize ->
  Forall accepted rs ->
  uploadEndpoint s1 = (answers rs ++ rest)%list ->
  let s' := (uploadFileWith encodeURI chunkSize fuel relativePath content s).2 in
  let puts := List.filter isPut (requestsIssued s1 s') in
  forall (k : nat) (r : Request),
    puts !! k = Some r ->
    1 <= Z.of_nat (length (bodyBytes r)) <= chunkSize
    /\ ((S k < length puts)%nat -> Z.of_nat (length (bodyBytes r)) = chunkSize).
Proof.
  intros Hpos Hfuel Htoken Hsession Hok Hjson Hurl Hlen Hrs Hq s' puts k r Hk.
  assert (Hsize : 0 <= Z.of_nat (length content)) by lia.
  assert (Hputs : puts
    = map (nthChunkRequest chunkSize sessionUrl content)
        (seq 0 (chunkCount (Z.of_nat (length content)) chunkSize))).
  { subst puts s'.
    rewrite (uploadFileWith_accepted encodeURI chunkSize sessionUrl content Hpos
               fuel relativePath s token s1 dt sessionResp sessions rs rest)
      by (try done; lia).
    cbn [snd].
    rewrite (requestsIssued_app s1 _
               (createSessionRequest encodeURI (settings s1) token relativePath
                :: map (nthChunkRequest chunkSize sessionUrl content)
                     (seq 0 (length rs)))) by (by destruct s1).
    cbn [List.filter]. rewrite isPut_session, filter_isPut_chunks. by rewrite Hlen. }
  rewrite Hputs in Hk |- *. rewrite length_map, length_seq.
  rewrite list_lookup_fmap in Hk.
  destruct (seq 0 _ !! k) as [k'|] eqn:Hseq; [|discriminate].
  apply lookup_seq in Hseq as [-> Hlt]. simpl in Hk. injection Hk as <-.
  rewrite (length_chunk_body chunkSize sessionUrl content k Hpos).
  pose proof (proj1 (chunkCount_lt _ chunkSize Hpos Hsize k) Hlt) as Hstart.
  split; [lia|].
  intros Hnext.
  pose proof (proj1 (chunkCount_lt _ chunkSize Hpos Hsize (S k)) Hnext). lia.
Qed.

Lemma uploadFile_chunk_sizes_witness :
  let s' := (uploadFileWith (fun p => p) 4 3 "a.bin" Transfer.ten
               Transfer.completed).2 in
  map (fun r => length (bodyBytes r))
      (List.filter isPut (requestsIssued Transfer.completed s'))
  = [4; 4; 2]%nat
  /\ 1 <= 2 <= 4.
Proof.
  split; [reflexivity|].
  destruct (uploadFile_chunk_sizes (fun p => p) 4 3 "a.bin" Transfer.ten
              Transfer.completed Transfer.completed "at-0" Transfer.sessionUrl 2
              (mkResponse true 200 "" (Some (mkSession (Some Transfer.sessionUrl))))
              []
              [(1, Transfer.more); (1, Transfer.more); (1, Transfer.created 10)]
              [] ltac:(reflexivity) ltac:(vm_compute; lia) eq_refl eq_refl eq_refl
              eq_refl ltac:(discriminate) eq_refl
              ltac:(repeat constructor; by eexists) eq_refl 2%nat
              (nthChunkRequest 4 Transfer.sessionUrl Transfer.ten 2) eq_refl)
    as [Hbounds _].
  exact Hbounds.
Defined.

Lemma finalItemAfter_app finalItem rs1 rs2 :
  finalItemAfter finalItem (rs1 ++ rs2)
  = finalItemAfter (finalItemAfter finalItem rs1) rs2.
Proof. unfold finalItemAfter. by rewrite fold_left_app. Qed.

Lemma finalItemAfter_keeps finalItem rs :
  Forall withoutId rs -> finalItemAfter finalItem rs = finalItem.
Proof.
  unfold finalItemAfter. revert finalItem.
  induction rs as [|x rs IH]; intros finalItem Hrs; simpl; [done|].
  apply Forall_cons in Hrs as [Hx Hrs]. rewrite IH by done.
  destruct (json x.2) as [item|] eqn:E; [|done].
  by rewrite (Hx item E).
Qed.

(** X9.  In an upload whose chunks are all accepted, [uploadFile] returns
    the item of the last answer that carries an id.  The loop does not
    stop at that answer, and answers without an id after it do not undo
    it: the upload succeeds even when the final answer names no item. *)
Theorem uploadFile_returns_last_item
    (encodeURI : string -> string) (chunkSize : Z) (fuel : nat)
    (relativePath : string) (content : list byte)
    (s s1 : State) (token sessionUrl : string) (dt : Z)
    (sessionResp : Response SessionData)
    (sessions : list (Fetched (Response SessionData)))
    (before after : list (Z * Response DriveItem))
    (dt' : Z) (r : Response DriveItem) (item : DriveItem)
    (rest : list (Fetched (Response DriveItem))) :
  let rs := (before ++ (dt', r) :: after)%list in
  0 < chunkSize ->
  (chunkCount (Z.of_nat (length content)) chunkSize <= fuel)%nat ->
  getAccessToken s = (Ret token, s1) ->
  sessionEndpoint s1 = Arrived dt sessionResp :: sessions ->
  ok sessionResp = true ->
  json sessionResp = Some (mkSession (Some sessionUrl)) ->
  sessionUrl <> "" ->
  length rs = chunkCount (Z.of_nat (length content)) chunkSize ->
  Forall accepted rs ->
  uploadEndpoint s1 = (answers rs ++ rest)%list ->
  json r = Some item ->
  hasId item = true ->
  Forall withoutId after ->
  let out := uploadFileWith encodeURI chunkSize fuel relativePath content s in
  out.1 = Ret item
  /\ length (List.filter isPut (requestsIssued s1 out.2)) = length rs.
Proof.
  intros rs Hpos Hfuel Htoken Hsession Hok Hjson Hurl Hlen Hrs Hq Hitem Hid
    Hafter out.
  subst out.
  rewrite (uploadFileWith_accepted encodeURI chunkSize sessionUrl content Hpos
             fuel relativePath s token s1 dt sessionResp sessions rs rest)
    by (try done; lia).
  cbn [fst snd]. split.
  - subst rs. rewrite finalItemAfter_app.
    change ((dt', r) :: after) with ([(dt', r)] ++ after)%list.
    rewrite finalItemAfter_app, (finalItemAfter_keeps _ after Hafter).
    unfold finalItemAfter. simpl. by rewrite Hitem, Hid.
  - rewrite (requestsIssued_app s1 _
               (createSessionRequest encodeURI (settings s1) token relativePath
                :: map (nthChunkRequest chunkSize sessionUrl content)
                     (seq 0 (length rs)))) by (by destruct s1).
    cbn [List.filter]. rewrite isPut_session, filter_isPut_chunks.
    by rewrite length_map, length_seq.
Qed.

Lemma uploadFile_returns_last_item_witness :
  (uploadFileWith (fun p => p) 4 3 "a.bin" Transfer.ten Refusal.early).1
  = Ret (Graph.mkDriveItem (Some "item-1") "a.bin" 10).
Proof.
  apply (uploadFile_returns_last_item (fun p => p) 4 3 "a.bin" Transfer.ten
           Refusal.early Refusal.early "at-0" Transfer.sessionUrl 2
           (mkResponse true 200 "" (Some (mkSession (Some Transfer.sessionUrl))))
           [] [(1, Transfer.more)] [(1, Transfer.more)] 1 (Transfer.created 10)
           (Graph.mkDriveItem (Some "item-1") "a.bin" 10) []).
  - reflexivity.
  - vm_compute. lia.
  - reflexivity.
  - reflexivity.
  - reflexivity.
  - reflexivity.
  - discriminate.
  - reflexivity.
  - repeat constructor; by eexists.
  - reflexivity.
  - reflexivity.
  - reflexivity.
  - repeat constructor. intros item [= <-]. reflexivity.
Defined.

(** ** Whole passes *)

Lemma uploadAll_total encodeURI localFolderPath files : forall s,
  (uploadAll encodeURI localFolderPath files s).1 <> OutOfFuel.
Proof.
  induction files as [|file files IH]; intros s; simpl; [discriminate|].
  unfold bind at 1. unfold readBinary, ret. unfold bind at 1.
  match goal with
  | |- context [uploadFile ?e ?p ?c ?st] =>
      pose proof (uploadFile_total e p c st) as Hup;
      destruct (uploadFile e p c st) as [[item|msg|] s1]
  end; simpl in *; [apply IH | discriminate | congruence].
Qed.

(** X10.  The upload loop comes to an end for every buffer, whatever the
    endpoints answer, and so does the loop of a pass over any list of
    files: no run of [uploadFile] or of the uploads of [syncVault] goes
    on for ever. *)
Theorem uploads_terminate (encodeURI : string -> string)
    (relativePath localFolderPath : string) (content : list byte)
    (files : list TAbstractFile) (s : State) :
  (uploadFile encodeURI relativePath content s).1 <> OutOfFuel
  /\ (uploadAll encodeURI localFolderPath files s).1 <> OutOfFuel.
Proof.
  split; [apply uploadFile_total | apply uploadAll_total].
Qed.

Lemma withStatus_frame status s :
  settings (withStatus status s) = settings s
  /\ vault (withStatus status s) = vault s
  /\ trace (withStatus status s) = trace s
  /\ notices (withStatus status s) = notices s
  /\ console (withStatus status s) = console s.
Proof. unfold withStatus. destruct (statusBarEl s); repeat split. Qed.

(** The three ways a pass over an existing folder ends. *)
Lemma syncVault_folder encodeURI s p children :
  accessToken (settings s) <> "" -> refreshToken (settings s) <> "" ->
  vault s !! localVaultFolder (settings s) = Some (TFolder p children) ->
  let files := List.filter isTFile (descendants (TFolder p children)) in
  let run := uploadAll encodeURI (localVaultFolder (settings s)) files
               (withStatus "Syncing..." s) in
  syncVault encodeURI s
  = match run.1 with
    | Ret _ =>
        (Ret tt,
         withStatus "Idle"
           (set_notices
              (notices run.2
               ++ ["Sync completado. Subidos "
                   +:+ JS.show (Z.of_nat (length files)) +:+ " archivos."])
              run.2))
    | Throw msg =>
        (Ret tt,
         set_notices
           (notices run.2 ++ ["Error al sincronizar con OneDrive. Ver consola."])
           (withStatus "Error"
              (set_console (console run.2 ++ ["Error al syncVault: " +:+ msg])
                 run.2)))
    | OutOfFuel => (OutOfFuel, run.2)
    end.
Proof.
  intros Ha Hr Hroot files run.
  destruct (withStatus_frame "Syncing..." s) as (Hset & Hvault & _).
  unfold syncVault. unfold bind at 1.
  rewrite (authenticated_true s Ha Hr). cbn [negb].
  unfold try_catch. unfold bind at 1. unfold updateStatusBar, modify.
  unfold bind at 1. unfold gets. rewrite Hset.
  unfold bind at 1. unfold getAbstractFileByPath, gets. rewrite Hvault, Hroot.
  unfold bind at 1.
  rewrite (getAllFilesInFolder_folder _ _ p children)
    by (by rewrite Hvault).
  unfold bind at 1. fold files. fold run.
  destruct run as [[[]|msg|] s2]; [reflexivity| |reflexivity].
  destruct s2 as [cfg [sb|] ns cs v c te le se ue tr]; reflexivity.
Qed.

Lemma syncVault_no_folder encodeURI s :
  accessToken (settings s) <> "" -> refreshToken (settings s) <> "" ->
  (forall p children,
     vault s !! localVaultFolder (settings s) <> Some (TFolder p children)) ->
  syncVault encodeURI s
  = (Ret tt,
     withStatus "Error: no local folder"
       (set_notices
          (notices s ++ ["Carpeta local '" +:+ localVaultFolder (settings s)
                         +:+ "' no existe en el Vault."])
          (withStatus "Syncing..." s))).
Proof.
  intros Ha Hr Hroot.
  unfold syncVault, isAuthenticated, getAbstractFileByPath, updateStatusBar,
    withStatus.
  unfold_monad. apply truthy_true in Ha, Hr. rewrite Ha, Hr.
  destruct s as [cfg sb ns cs v c te le se ue tr]; simpl in *.
  destruct sb; simpl;
    (destruct (v !! localVaultFolder cfg) as [[p data|p children]|] eqn:E;
     [reflexivity | by destruct (Hroot p children) | reflexivity]).
Qed.

(** X11.  [syncVault] never lets an error out and always comes to an end:
    whatever the settings, the vault and the answers of the remote side,
    it returns normally. *)
Theorem syncVault_never_throws (encodeURI : string -> string) (s : State) :
  (syncVault encodeURI s).1 = Ret tt.
Proof.
  destruct (String.eqb (accessToken (settings s)) "") eqn:Ha.
  { apply String.eqb_eq in Ha.
    unfold syncVault, isAuthenticated. unfold_monad. by rewrite Ha. }
  destruct (String.eqb (refreshToken (settings s)) "") eqn:Hr.
  { apply String.eqb_eq in Hr.
    unfold syncVault, isAuthenticated. unfold_monad.
    rewrite Hr. simpl. by rewrite andb_false_r. }
  apply String.eqb_neq in Ha, Hr.
  destruct (vault s !! localVaultFolder (settings s)) as [[p data|p children]|]
    eqn:Hroot.
  - rewrite syncVault_no_folder; [reflexivity|done|done|].
    intros p' children'. by rewrite Hroot.
  - rewrite (syncVault_folder encodeURI s p children Ha Hr Hroot).
    match goal with
    | |- context [uploadAll ?e ?l ?f ?st] =>
        pose proof (uploadAll_total e l f st) as Hrun;
        destruct (uploadAll e l f st) as [[[]|msg|] s2]
    end; simpl in *; [reflexivity | reflexivity | congruence].
  - rewrite syncVault_no_folder; [reflexivity|done|done|].
    intros p' children'. by rewrite Hroot.
Qed.

Lemma no_files_below p children :
  (forall n, Under n (TFolder p children) -> isTFile n = false) ->
  List.filter isTFile (descendants (TFolder p children)) = [].
Proof.
  intros Hnone.
  assert (Hall : forall n, In n (descendants (TFolder p children)) ->
                           isTFile n = false).
  { intros n Hn. apply Hnone. by apply descendants_Under. }
  induction (descendants (TFolder p children)) as [|x l IH]; [done|].
  simpl. rewrite (Hall x) by (by left). apply IH.
  intros n Hn. apply Hall. by right.
Qed.

(** X12.  A pass over a local folder that exists and has no file below it
    succeeds without a single request: the notice counts 0 files and the
    status goes back to idle. *)
Theorem syncVault_empty_folder (encodeURI : string -> string) (s : State)
    (p : string) (children : list TAbstractFile) :
  accessToken (settings s) <> "" -> refreshToken (settings s) <> "" ->
  vault s !! localVaultFolder (settings s) = Some (TFolder p children) ->
  (forall n, Under n (TFolder p children) -> isTFile n = false) ->
  syncVault encodeURI s
  = (Ret tt,
     withStatus "Idle"
       (set_notices (notices s ++ ["Sync completado. Subidos 0 archivos."])
          (withStatus "Syncing..." s)))
  /\ requestsIssued s (syncVault encodeURI s).2 = [].
Proof.
  intros Ha Hr Hroot Hnone.
  assert (E : syncVault encodeURI s
    = (Ret tt,
       withStatus "Idle"
         (set_notices (notices s ++ ["Sync completado. Subidos 0 archivos."])
            (withStatus "Syncing..." s)))).
  { rewrite (syncVault_folder encodeURI s p children Ha Hr Hroot).
    rewrite (no_files_below p children Hnone). simpl.
    destruct s as [cfg [sb|] ns cs v c te le se ue tr]; reflexivity. }
  rewrite E. split; [reflexivity|]. apply requestsIssued_same.
  destruct s as [cfg [sb|] ns cs v c te le se ue tr]; reflexivity.
Qed.

Lemma syncVault_empty_folder_witness :
  syncVault (fun p => p) Pass.emptyFolder
  = (Ret tt,
     set_notices ["Sync completado. Subidos 0 archivos."] Pass.emptyFolder).
Proof.
  apply (syncVault_empty_folder (fun p => p) Pass.emptyFolder "MyLocalVault"
           [TFolder "MyLocalVault/sub" []]).
  - discriminate.
  - discriminate.
  - vm_compute. reflexivity.
  - intros n Hn. inversion Hn as [p cs Hin|p cs d Hin Hd]; subst.
    + destruct Hin as [<-|[]]. reflexivity.
    + destruct Hin as [<-|[]].
      inversion Hd as [p cs Hin'|p cs d' Hin' Hd']; inversion Hin'.
Defined.

(** X13.  When every upload of a pass goes through, [syncVault] reports
    in its notice the number of files below the local folder, and sets
    the status back to idle. *)
Theorem syncVault_reports_count (encodeURI : string -> string) (s s2 : State)
    (p : string) (children : list TAbstractFile) :
  let files := List.filter isTFile (descendants (TFolder p children)) in
  accessToken (settings s) <> "" -> refreshToken (settings s) <> "" ->
  vault s !! localVaultFolder (settings s) = Some (TFolder p children) ->
  uploadAll encodeURI (localVaultFolder (settings s)) files
    (withStatus "Syncing..." s) = (Ret tt, s2) ->
  syncVault encodeURI s
  = (Ret tt,
     withStatus "Idle"
       (set_notices
          (notices s2 ++ ["Sync completado. Subidos "
                          +:+ JS.show (Z.of_nat (length files)) +:+ " archivos."])
          s2)).
Proof.
  intros files Ha Hr Hroot Hrun.
  rewrite (syncVault_folder encodeURI s p children Ha Hr Hroot).
  fold files. by rewrite Hrun.
Qed.

Lemma syncVault_reports_count_witness :
  notices (syncVault (fun p => p) Transfer.vaultSync).2
  = ["Sync completado. Subidos 2 archivos."]
  /\ statusBarEl (syncVault (fun p => p) Transfer.vaultSync).2
     = Some "OneDrive: Idle".
Proof.
  rewrite (syncVault_reports_count (fun p => p) Transfer.vaultSync
             (uploadAll (fun p => p) "root" [Tree.a_md; Tree.b_md]
                (withStatus "Syncing..." Transfer.vaultSync)).2
             "root" [Tree.a_md; Tree.sub; Tree.empty]).
  - split; reflexivity.
  - discriminate.
  - discriminate.
  - vm_compute. reflexivity.
  - vm_compute. reflexivity.
Defined.

Lemma uploadAll_app encodeURI localFolderPath before rest : forall s s1,
  uploadAll encodeURI localFolderPath before s = (Ret tt, s1) ->
  uploadAll encodeURI localFolderPath (before ++ rest) s
  = uploadAll encodeURI localFolderPath rest s1.
Proof.
  induction before as [|f before IH]; intros s s1 Hrun; simpl in *.
  - unfold ret in Hrun. by injection Hrun as <-.
  - unfold readBinary in *. unfold_monad.
    destruct (uploadFile _ _ _ s) as [[item|msg|] s0]; try discriminate.
    by apply IH.
Qed.

Lemma syncVault_failing_upload encodeURI s s1 s2 p children before after
    filePath data msg :
  accessToken (settings s) <> "" -> refreshToken (settings s) <> "" ->
  vault s !! localVaultFolder (settings s) = Some (TFolder p children) ->
  List.filter isTFile (descendants (TFolder p children))
  = (before ++ TFile filePath data :: after)%list ->
  uploadAll encodeURI (localVaultFolder (settings s)) before
    (withStatus "Syncing..." s) = (Ret tt, s1) ->
  uploadFile encodeURI
    (JS.substring_from (String.length (localVaultFolder (settings s)) + 1) filePath)
    data s1 = (Throw msg, s2) ->
  syncVault encodeURI s
  = (Ret tt,
     set_notices
       (notices s2 ++ ["Error al sincronizar con OneDrive. Ver consola."])
       (withStatus "Error"
          (set_console (console s2 ++ ["Error al syncVault: " +:+ msg]) s2))).
Proof.
  intros Ha Hr Hroot Hfiles Hbefore Hfail.
  rewrite (syncVault_folder encodeURI s p children Ha Hr Hroot).
  rewrite Hfiles, (uploadAll_app _ _ _ _ _ _ Hbefore).
  cbn [uploadAll path]. unfold readBinary. unfold_monad.
  rewrite Hfail. reflexivity.
Qed.

(** X14.  A pass stops at the first upload that fails: [syncVault] logs
    the error, sets the status to the error status and shows the error
    notice, and the state it ends in is the one that upload left; the
    files after the failing one are not read and nothing is sent for
    them. *)
Theorem syncVault_stops_at_first_failure
    (encodeURI : string -> string) (s s1 s2 : State)
    (p : string) (children before after : list TAbstractFile)
    (filePath : string) (data : list byte) (msg : string) :
  accessToken (settings s) <> "" -> refreshToken (settings s) <> "" ->
  vault s !! localVaultFolder (settings s) = Some (TFolder p children) ->
  List.filter isTFile (descendants (TFolder p children))
  = (before ++ TFile filePath data :: after)%list ->
  uploadAll encodeURI (localVaultFolder (settings s)) before
    (withStatus "Syncing..." s) = (Ret tt, s1) ->
  uploadFile encodeURI
    (JS.substring_from (String.length (localVaultFolder (settings s)) + 1) filePath)
    data s1 = (Throw msg, s2) ->
  syncVault encodeURI s
  = (Ret tt,
     set_notices
       (notices s2 ++ ["Error al sincronizar con OneDrive. Ver consola."])
       (withStatus "Error"
          (set_console (console s2 ++ ["Error al syncVault: " +:+ msg]) s2)))
  /\ trace (syncVault encodeURI s).2 = trace s2
  /\ sessionEndpoint (syncVault encodeURI s).2 = sessionEndpoint s2
  /\ uploadEndpoint (syncVault encodeURI s).2 = uploadEndpoint s2.
Proof.
  intros Ha Hr Hroot Hfiles Hbefore Hfail.
  assert (E : syncVault encodeURI s
    = (Ret tt,
       set_notices
         (notices s2 ++ ["Error al sincronizar con OneDrive. Ver consola."])
         (withStatus "Error"
            (set_console (console s2 ++ ["Error al syncVault: " +:+ msg]) s2)))).
  { by apply (syncVault_failing_upload encodeURI s s1 s2 p children before after
                filePath data msg). }
  rewrite E. split; [reflexivity|].
  destruct s2 as [cfg [sb|] ns cs v c te le se ue tr]; repeat split.
Qed.

Lemma syncVault_stops_at_first_failure_witness :
  let out := syncVault (fun p => p) Pass.firstFileFails in
  statusBarEl out.2 = Some "OneDrive: Error"
  /\ console out.2
     = ["Error al syncVault: Error al crear UploadSession: 403 - accessDenied"]
  /\ map url (trace out.2)
     = ["https://graph.microsoft.com/v1.0/drive/root:/Notes/a.md:/createUploadSession"]
  /\ sessionEndpoint out.2 = [Transfer.session].
Proof.
  destruct (syncVault_stops_at_first_failure (fun p => p) Pass.firstFileFails
              (withStatus "Syncing..." Pass.firstFileFails)
              (uploadFile (fun p => p) "a.md" [Byte.x61]
                 (withStatus "Syncing..." Pass.firstFileFails)).2
              "root" [Tree.a_md; Tree.sub; Tree.empty] [] [Tree.b_md]
              "root/a.md" [Byte.x61]
              "Error al crear UploadSession: 403 - accessDenied")
    as (E & _).
  - discriminate.
  - discriminate.
  - vm_compute. reflexivity.
  - reflexivity.
  - reflexivity.
  - vm_compute. reflexivity.
  - intros out. subst out. rewrite E. repeat split.
Defined.

(** X15.  An empty file makes the pass fail when its turn comes: with the
    token at hand and the session created, nothing but the session
    request is sent for it, no reply of the upload endpoint is consumed,
    and the pass ends with the error status and, in the console, the error
    that no final item was obtained; the files after it are not
    uploaded. *)
Theorem syncVault_empty_file_fails
    (encodeURI : string -> string) (s s1 : State)
    (p : string) (children before after : list TAbstractFile)
    (filePath sessionUrl : string) (dt : Z)
    (sessionResp : Response SessionData)
    (sessions : list (Fetched (Response SessionData))) :
  accessToken (settings s) <> "" -> refreshToken (settings s) <> "" ->
  vault s !! localVaultFolder (settings s) = Some (TFolder p children) ->
  List.filter isTFile (descendants (TFolder p children))
  = (before ++ TFile filePath [] :: after)%list ->
  uploadAll encodeURI (localVaultFolder (settings s)) before
    (withStatus "Syncing..." s) = (Ret tt, s1) ->
  accessToken (settings s1) <> "" /\ clock s1 < accessTokenExpiresAt (settings s1) ->
  sessionEndpoint s1 = Arrived dt sessionResp :: sessions ->
  ok sessionResp = true ->
  json sessionResp = Some (mkSession (Some sessionUrl)) ->
  sessionUrl <> "" ->
  let out := syncVault encodeURI s in
  out.1 = Ret tt
  /\ console out.2
     = (console s1
        ++ ["Error al syncVault: No se obtuvo DriveItem final tras la subida."])%list
  /\ statusBarEl out.2
     = match statusBarEl s1 with
       | Some _ => Some "OneDrive: Error"
       | None => None
       end
  /\ trace out.2
     = (trace s1
        ++ [createSessionRequest encodeURI (settings s1) (accessToken (settings s1))
              (JS.substring_from
                 (String.length (localVaultFolder (settings s)) + 1) filePath)])%list
  /\ uploadEndpoint out.2 = uploadEndpoint s1.
Proof.
  intros Ha Hr Hroot Hfiles Hbefore Hfresh Hsession Hok Hjson Hurl out.
  apply tokenFresh_true in Hfresh.
  pose proof (uploadFileWith_accepted encodeURI CHUNK_SIZE sessionUrl []
                ltac:(reflexivity) (length (@nil byte))
                (JS.substring_from
                   (String.length (localVaultFolder (settings s)) + 1) filePath)
                s1 (accessToken (settings s1)) s1 dt sessionResp sessions []
                (uploadEndpoint s1) (getAccessToken_fresh s1 Hfresh) Hsession Hok
                Hjson Hurl eq_refl ltac:(done) ltac:(constructor) eq_refl)
    as Hfail.
  fold (uploadFile encodeURI
          (JS.substring_from
             (String.length (localVaultFolder (settings s)) + 1) filePath) [])
    in Hfail.
  subst out.
  rewrite (syncVault_failing_upload encodeURI s s1 _ p children before after
             filePath [] _ Ha Hr Hroot Hfiles Hbefore Hfail).
  destruct s1 as [cfg [sb|] ns cs v c te le se ue tr]; repeat split.
Qed.

Lemma syncVault_empty_file_fails_witness :
  let out := syncVault (fun p => p) Pass.blankFirst in
  statusBarEl out.2 = Some "OneDrive: Error"
  /\ console out.2
     = ["Error al syncVault: No se obtuvo DriveItem final tras la subida."]
  /\ uploadEndpoint out.2 = answers [(1, Transfer.created 1)].
Proof.
  destruct (syncVault_empty_file_fails (fun p => p) Pass.blankFirst
              (withStatus "Syncing..." Pass.blankFirst)
              "root" [Pass.blank; Tree.a_md] [] [Tree.a_md] "root/blank.md"
              Transfer.sessionUrl 2
              (mkResponse true 200 "" (Some (mkSession (Some Transfer.sessionUrl))))
              [Transfer.session])
    as (_ & Hconsole & Hstatus & _ & Hupload).
  - discriminate.
  - discriminate.
  - vm_compute. reflexivity.
  - reflexivity.
  - reflexivity.
  - split; [discriminate | reflexivity].
  - reflexivity.
  - reflexivity.
  - reflexivity.
  - discriminate.
  - split; [exact Hstatus|]. split; [exact Hconsole | exact Hupload].
Defined.

Lemma substring_all (s : string) : String.substring 0 (String.length s) s = s.
Proof. induction s as [|c s IH]; simpl; [done | by rewrite IH]. Qed.

Lemma substring_from_app (a b : string) :
  JS.substring_from (String.length a) (a +:+ b) = b.
Proof.
  unfold JS.substring_from.
  induction a as [|c a IH]; simpl.
  - rewrite Nat.sub_0_r. apply substring_all.
  - exact IH.
Qed.

Lemma string_length_app (a b : string) :
  String.length (a +:+ b) = (String.length a + String.length b)%nat.
Proof.
  induction a as [|c a IH]; [done|]. exact (f_equal S IH).
Qed.

Lemma string_app_assoc (a b c : string) : (a +:+ b) +:+ c = a +:+ (b +:+ c).
Proof.
  induction a as [|x a IH]; [done|]. exact (f_equal (String x) IH).
Qed.

(** X16.  A file whose path is the local folder, a slash and a relative
    path is uploaded under that relative path: the slash and the folder
    are cut, whatever the folder is called. *)
Theorem uploadAll_relative_path (encodeURI : string -> string)
    (localFolderPath relativePath : string) (data : list byte)
    (rest : list TAbstractFile) (s : State) :
  uploadAll encodeURI localFolderPath
    (TFile (localFolderPath +:+ "/" +:+ relativePath) data :: rest) s
  = (uploadFile encodeURI relativePath data ;;;
     uploadAll encodeURI localFolderPath rest) s.
Proof.
  cbn [uploadAll path]. unfold readBinary. unfold bind at 1. unfold ret.
  replace (String.length localFolderPath + 1)%nat
    with (String.length (localFolderPath +:+ "/"))
    by (rewrite string_length_app; reflexivity).
  replace (localFolderPath +:+ "/" +:+ relativePath)
    with ((localFolderPath +:+ "/") +:+ relativePath).
  - by rewrite substring_from_app.
  - apply string_app_assoc.
Qed.

(** ** [base64URLEncode] *)

Lemma replaceAll_chars c d s x :
  In x (list_ascii_of_string (replaceAll c d s)) ->
  x <> c /\ In x (list_ascii_of_string s) \/ x = d.
Proof.
  induction s as [|y s IH]; simpl; [tauto|].
  destruct (Ascii.eqb y c) eqn:E.
  - intros [<-|Hin]; [by right|].
    destruct (IH Hin) as [[Hx Hs]|Hd]; [left; tauto | by right].
  - apply Ascii.eqb_neq in E.
    intros [<-|Hin]; [left; tauto|].
    destruct (IH Hin) as [[Hx Hs]|Hd]; [left; tauto | by right].
Qed.

Lemma replaceAll_length c d s :
  String.length (replaceAll c d s) = String.length s.
Proof. induction s as [|y s IH]; simpl; [done | by rewrite IH]. Qed.

Lemma stripPadding_chars s x :
  In x (list_ascii_of_string (stripPadding s)) -> In x (list_ascii_of_string s).
Proof.
  induction s as [|y s IH]; simpl; [tauto|].
  destruct (stripPadding s) as [|z rest].
  - destruct (Ascii.eqb y "="); simpl; tauto.
  - simpl in *. intros [<-|Hin]; [by left | right; by apply IH].
Qed.

Lemma stripPadding_padding s :
  exists pad,
    s = stripPadding s +:+ pad
    /\ forall x, In x (list_ascii_of_string pad) -> x = "="%char.
Proof.
  induction s as [|y s (pad & Hs & Hpad)]; simpl.
  - exists "". split; [reflexivity | intros x []].
  - destruct (stripPadding s) as [|z rest].
    + change ("" +:+ pad) with pad in Hs. subst pad.
      destruct (Ascii.eqb y "=") eqn:E.
      * apply Ascii.eqb_eq in E. subst y. exists (String "=" s).
        split; [reflexivity|]. intros x [<-|Hin]; [done | by apply Hpad].
      * exists s. split; [reflexivity | exact Hpad].
    + exists pad. split; [|exact Hpad].
      change (String y s = String y (String z rest +:+ pad)). by rewrite <- Hs.
Qed.

Lemma stripPadding_no_padding s : forall t, stripPadding s <> t +:+ "=".
Proof.
  induction s as [|y s IH]; intros t; simpl.
  - destruct t; discriminate.
  - destruct (stripPadding s) as [|z rest] eqn:E.
    + destruct (Ascii.eqb y "=") eqn:Ey; [destruct t; discriminate|].
      apply Ascii.eqb_neq in Ey.
      destruct t as [|x [|x' t]]; [|discriminate..].
      intros [= ->]. by apply Ey.
    + destruct t as [|x t]; [discriminate|].
      change (String y (String z rest) <> String x (t +:+ "=")).
      intros [= -> Hrest]. by apply (IH t).
Qed.

Lemma binaryString_chars (buffer : list byte) : forall prefix,
  fold_left (fun str b => str +:+ String (ascii_of_byte b) EmptyString) buffer prefix
  = prefix +:+ string_of_list_ascii (map ascii_of_byte buffer).
Proof.
  induction buffer as [|b buffer IH]; intros prefix; simpl.
  - clear. induction prefix as [|x p IH]; [done|].
    exact (f_equal (String x) IH).
  - rewrite IH. apply string_app_assoc.
Qed.

(** X17.  [base64URLEncode] hands [btoa] the string that has one
    character per byte of the buffer, in order.  Whatever [btoa] gives,
    the result has no [+] and no [/] in it and does not end with [=]; it
    is the [btoa] string with [+] turned into [-] and [/] into [_], short
    of a run of [=] at its end, so it is never longer than the [btoa]
    string. *)
Theorem base64URLEncode_url_safe (btoa : string -> string) (buffer : list byte) :
  let encoded := btoa (binaryString buffer) in
  let out := base64URLEncode btoa buffer in
  binaryString buffer = string_of_list_ascii (map ascii_of_byte buffer)
  /\ ~ In "+"%char (list_ascii_of_string out)
  /\ ~ In "/"%char (list_ascii_of_string out)
  /\ (forall t, out <> t +:+ "=")
  /\ (exists pad,
        replaceAll "/" "_" (replaceAll "+" "-" encoded) = out +:+ pad
        /\ forall x, In x (list_ascii_of_string pad) -> x = "="%char)
  /\ (String.length out <= String.length encoded)%nat.
Proof.
  intros encoded out. subst out. unfold base64URLEncode. fold encoded.
  set (replaced := replaceAll "/" "_" (replaceAll "+" "-" encoded)).
  split; [|split; [|split; [|split; [|split]]]].
  - unfold binaryString. by rewrite binaryString_chars.
  - intros Hin. apply stripPadding_chars in Hin.
    apply replaceAll_chars in Hin as [[_ Hin]|Hin]; [|discriminate].
    apply replaceAll_chars in Hin as [[Hne _]|Hin]; [done | discriminate].
  - intros Hin. apply stripPadding_chars in Hin.
    apply replaceAll_chars in Hin as [[Hne _]|Hin]; [done | discriminate].
  - apply stripPadding_no_padding.
  - apply stripPadding_padding.
  - destruct (stripPadding_padding replaced) as (pad & Hs & _).
    assert (Hlen : String.length replaced = String.length encoded).
    { unfold replaced. by rewrite !replaceAll_length. }
    rewrite <- Hlen. rewrite Hs at 2. rewrite string_length_app. lia.
Qed.

Lemma base64URLEncode_url_safe_witness :
  base64URLEncode Pkce.toyBtoa [Byte.x61; Byte.x62] = "a-_b-"
  /\ ~ In "+"%char (list_ascii_of_string
                      (base64URLEncode Pkce.toyBtoa [Byte.x61; Byte.x62]))
  /\ binaryString [Byte.x61; Byte.x62] = "ab".
Proof.
  destruct (base64URLEncode_url_safe Pkce.toyBtoa [Byte.x61; Byte.x62])
    as (Hstr & Hplus & _).
  split; [reflexivity|]. split; [exact Hplus | exact Hstr].
Defined.

(** ** The token requests of [onedriveAuth.ts] *)

(** X18.  [sendRefreshTokenReq] and [sendAuthReq] send exactly one request
    each, whatever they are given: unlike [refreshAccessToken],
    [sendRefreshTokenReq] also sends it for an empty refresh token.  A
    failure is logged once in the console and thrown again with the same
    message; on success nothing is logged.  Neither touches the
    settings. *)
Theorem auth_requests_log_and_rethrow
    (clientID authority refreshToken authCode verifier : string) (s : State) :
  (let out := sendRefreshTokenReq clientID authority refreshToken s in
   requestsIssued s out.2
   = [sendRefreshTokenRequest clientID authority refreshToken]
   /\ settings out.2 = settings s
   /\ out.1 <> OutOfFuel
   /\ (forall reply, out.1 = Ret reply -> console out.2 = console s)
   /\ (forall msg, out.1 = Throw msg ->
       console out.2
       = (console s ++ ["Error en sendRefreshTokenReq: " +:+ msg])%list))
  /\ (let out := sendAuthReq clientID authority authCode verifier s in
      requestsIssued s out.2
      = [sendAuthRequest clientID authority authCode verifier]
      /\ settings out.2 = settings s
      /\ out.1 <> OutOfFuel
      /\ (forall reply, out.1 = Ret reply -> console out.2 = console s)
      /\ (forall msg, out.1 = Throw msg ->
          console out.2 = (console s ++ ["Error en sendAuthReq: " +:+ msg])%list)).
Proof.
  split; cbv zeta;
    unfold sendRefreshTokenReq, sendAuthReq; unfold_monad;
    (destruct (tokenEndpoint s) as [|[reason|dt [[r|e]|]] q]; simpl;
     (split; [by apply requestsIssued_app|]);
     (split; [reflexivity|]);
     (split; [discriminate|]);
     (split; [intros reply [=]; reflexivity | intros msg [=]; by subst])).
Qed.

Lemma auth_requests_log_and_rethrow_witness :
  let out := sendRefreshTokenReq "client-1" "https://login.example" ""
               Outage.offline in
  console out.2 = ["Error en sendRefreshTokenReq: net::ERR_INTERNET_DISCONNECTED"]
  /\ length (requestsIssued Outage.offline out.2) = 1%nat.
Proof.
  destruct (auth_requests_log_and_rethrow "client-1" "https://login.example" ""
              "code-1" "verifier-1" Outage.offline)
    as [(Hreq & _ & _ & _ & Hlog) _].
  split.
  - apply (Hlog "net::ERR_INTERNET_DISCONNECTED"). reflexivity.
  - cbv zeta in Hreq. by rewrite Hreq.
Defined.

(** ** The other remote operations *)

Ltac unfold_host :=
  unfold hexchange, lift, htry_catch, hbind, hret, hthrow, hgets, hmodify in *;
  cbv beta iota zeta in *.

(** X19.  No operation of the client talks to the drive without a token:
    when [getAccessToken] throws, [listRemoteFolder], [uploadFile],
    [deleteItem] and [readFile] throw the same error and leave the state
    as [getAccessToken] left it, so that nothing was sent but, at most,
    the refresh request. *)
Theorem no_request_without_token
    (encodeURI : string -> string) (chunkSize : Z) (fuel : nat)
    (relativePath : string) (content : list byte)
    (h : Host) (msg : string) (s1 : State) :
  getAccessToken (core h) = (Throw msg, s1) ->
  listRemoteFolder (core h) = (Throw msg, s1)
  /\ uploadFileWith encodeURI chunkSize fuel relativePath content (core h)
     = (Throw msg, s1)
  /\ deleteItem encodeURI relativePath h = (Throw msg, set_core s1 h)
  /\ readFile encodeURI relativePath h = (Throw msg, set_core s1 h)
  /\ (requestsIssued (core h) s1 = []
      \/ requestsIssued (core h) s1 = [refreshRequest (settings (core h))]).
Proof.
  intros Htoken. split; [|split; [|split; [|split]]].
  - unfold listRemoteFolder. unfold bind at 1. by rewrite Htoken.
  - unfold uploadFileWith. unfold bind at 1. by rewrite Htoken.
  - unfold deleteItem. unfold hbind at 1. unfold lift. by rewrite Htoken.
  - unfold readFile. unfold hbind at 1. unfold lift. by rewrite Htoken.
  - revert Htoken. generalize (core h). intros s. revert s1 msg.
    token_cases s; intros s1 msg [= <- <-] || intros s1 msg [=];
      first [ left; by apply requestsIssued_same
            | right; by apply requestsIssued_app ].
Qed.

Lemma no_request_without_token_witness :
  deleteItem (fun p => p) "a.md" (Desk.loaded Outage.offline)
  = (Throw "net::ERR_INTERNET_DISCONNECTED",
     set_core (getAccessToken Outage.offline).2 (Desk.loaded Outage.offline))
  /\ listRemoteFolder Outage.offline
     = (Throw "net::ERR_INTERNET_DISCONNECTED", (getAccessToken Outage.offline).2).
Proof.
  destruct (no_request_without_token (fun p => p) CHUNK_SIZE 0 "a.md" []
              (Desk.loaded Outage.offline) "net::ERR_INTERNET_DISCONNECTED"
              (getAccessToken Outage.offline).2) as (Hlist & _ & Hdelete & _).
  - reflexivity.
  - split; [exact Hdelete | exact Hlist].
Defined.

(** X20.  [readFile] asks for the metadata with the bearer token and then
    fetches the download URL they name, without any header; it returns
    the body of that answer whatever its status, an error page
    included. *)
Theorem readFile_returns_any_body
    (encodeURI : string -> string) (relativePath : string) (h : Host)
    (dt dt' : Z) (downloadUrl : string)
    (q : list (Fetched (option ItemMetadata)))
    (answer : Download) (q' : list (Fetched Download)) :
  accessToken (settings (core h)) <> ""
  /\ clock (core h) < accessTokenExpiresAt (settings (core h)) ->
  metadataEndpoint h = Arrived dt (Some (mkMetadata (Some downloadUrl))) :: q ->
  downloadUrl <> "" ->
  downloadEndpoint h = Arrived dt' answer :: q' ->
  let out := readFile encodeURI relativePath h in
  out.1 = Ret (download_body answer)
  /\ requestsIssued (core h) (core out.2)
     = [metadataRequest encodeURI (settings (core h))
          (accessToken (settings (core h))) relativePath;
        mkRequest "GET" downloadUrl [] NoBody].
Proof.
  intros Hfresh Hmeta Hurl Hdown out. apply tokenFresh_true in Hfresh.
  apply truthy_true in Hurl.
  assert (E : exists h', out = (Ret (download_body answer), h')
    /\ trace (core h')
       = (trace (core h)
          ++ [metadataRequest encodeURI (settings (core h))
                (accessToken (settings (core h))) relativePath;
              mkRequest "GET" downloadUrl [] NoBody])%list).
  { subst out. unfold readFile. unfold hbind at 1. unfold lift at 1.
    rewrite (getAccessToken_fresh _ Hfresh).
    unfold_host. unfold parsed, ret. simpl. rewrite Hmeta. simpl.
    rewrite Hurl. simpl. rewrite Hdown. simpl.
    eexists. split; [reflexivity|]. simpl. by rewrite <- app_assoc. }
  destruct E as (h' & -> & Htrace). split; [reflexivity|].
  by apply requestsIssued_app.
Qed.

Lemma readFile_returns_any_body_witness :
  (readFile (fun p => p) "a.md" Desk.reading).1 = Ret [Byte.x3c; Byte.x3e].
Proof.
  apply (readFile_returns_any_body (fun p => p) "a.md" Desk.reading 2 4
           "https://cdn.example/a.md" [] (mkDownload false 404 [Byte.x3c; Byte.x3e]) []).
  - split; [discriminate | reflexivity].
  - reflexivity.
  - discriminate.
  - reflexivity.
Defined.

(** X21.  When the metadata name no download URL (or an empty one),
    [readFile] throws after the metadata request: no download is
    attempted. *)
Theorem readFile_without_download_url
    (encodeURI : string -> string) (relativePath : string) (h : Host)
    (dt : Z) (meta : ItemMetadata) (q : list (Fetched (option ItemMetadata))) :
  accessToken (settings (core h)) <> ""
  /\ clock (core h) < accessTokenExpiresAt (settings (core h)) ->
  metadataEndpoint h = Arrived dt (Some meta) :: q ->
  downloadUrl meta = None \/ downloadUrl meta = Some "" ->
  let out := readFile encodeURI relativePath h in
  out.1 = Throw "No se encontró la propiedad @microsoft.graph.downloadUrl."
  /\ requestsIssued (core h) (core out.2)
     = [metadataRequest encodeURI (settings (core h))
          (accessToken (settings (core h))) relativePath]
  /\ downloadEndpoint out.2 = downloadEndpoint h.
Proof.
  intros Hfresh Hmeta Hurl out. apply tokenFresh_true in Hfresh.
  assert (E : exists h',
    out = (Throw "No se encontró la propiedad @microsoft.graph.downloadUrl.", h')
    /\ trace (core h')
       = (trace (core h)
          ++ [metadataRequest encodeURI (settings (core h))
                (accessToken (settings (core h))) relativePath])%list
    /\ downloadEndpoint h' = downloadEndpoint h).
  { subst out. unfold readFile. unfold hbind at 1. unfold lift at 1.
    rewrite (getAccessToken_fresh _ Hfresh).
    unfold_host. unfold parsed, ret. simpl. rewrite Hmeta. simpl.
    destruct Hurl as [-> | ->]; simpl; eexists; repeat split. }
  destruct E as (h' & -> & Htrace & Hdown). split; [reflexivity|].
  split; [by apply requestsIssued_app | exact Hdown].
Qed.

Lemma readFile_without_download_url_witness :
  (readFile (fun p => p) "folder" Desk.noDownloadUrl).1
  = Throw "No se encontró la propiedad @microsoft.graph.downloadUrl."
  /\ downloadEndpoint (readFile (fun p => p) "folder" Desk.noDownloadUrl).2
     = [Arrived 4 (mkDownload true 200 [Byte.x61])].
Proof.
  destruct (readFile_without_download_url (fun p => p) "folder" Desk.noDownloadUrl
              2 (mkMetadata None) []) as (Hres & _ & Hdown).
  - split; [discriminate | reflexivity].
  - reflexivity.
  - by left.
  - split; [exact Hres | exact Hdown].
Defined.

(** ** Saved settings *)

Lemma assignSettings_dataOf defaults c :
  assignSettings defaults (Some (dataOf c)) = c.
Proof. by destruct c. Qed.

(** X22.  Settings survive a restart: whatever the settings in memory
    are by then, [loadSettings] on the data [saveSettings] wrote puts back
    exactly the settings that were saved, every field of them, and
    touches nothing else. *)
Theorem settings_round_trip (h h' : Host) :
  savedData h' = savedData (saveSettings h).2 ->
  (loadSettings h').1 = Ret tt
  /\ settings (core (loadSettings h').2) = settings (core h)
  /\ core (loadSettings h').2 = set_settings (settings (core h)) (core h')
  /\ savedData (loadSettings h').2 = savedData h'.
Proof.
  intros Hsaved. unfold loadSettings, saveSettings in *. unfold_host.
  simpl in *. rewrite Hsaved, assignSettings_dataOf. repeat split.
Qed.

Lemma settings_round_trip_witness :
  settings (core (loadSettings
                    (set_core (Scenario.idle DEFAULT_SETTINGS 0)
                       (saveSettings Desk.periodic).2)).2)
  = settings (core Desk.periodic).
Proof.
  apply (settings_round_trip Desk.periodic
           (set_core (Scenario.idle DEFAULT_SETTINGS 0)
              (saveSettings Desk.periodic).2)).
  reflexivity.
Defined.

Lemma unauthenticated_syncVault encodeURI s :
  accessToken (settings s) = "" \/ refreshToken (settings s) = "" ->
  isAuthenticated s = (Ret false, s)
  /\ syncVault encodeURI s
     = (Ret tt, set_notices (notices s ++ ["No estás autenticado en OneDrive."]) s).
Proof.
  intros H.
  assert (Hauth : isAuthenticated s = (Ret false, s)).
  { unfold isAuthenticated, gets.
    destruct H as [-> | ->]; simpl; [done | by rewrite andb_false_r]. }
  split; [exact Hauth|].
  unfold syncVault. unfold bind at 1. by rewrite Hauth.
Qed.

(** X23.  After [loadSettings] on no saved data, or on saved data that
    lack the access token or the refresh token, the plugin is not
    authenticated and [syncVault] sends nothing; with no saved data at
    all the settings are the default ones. *)
Theorem loadSettings_without_tokens (encodeURI : string -> string) (h : Host) :
  savedData h = None
  \/ (exists d, savedData h = Some d
                /\ (saved_accessToken d = None \/ saved_refreshToken d = None)) ->
  let s' := core (loadSettings h).2 in
  isAuthenticated s' = (Ret false, s')
  /\ requestsIssued s' (syncVault encodeURI s').2 = []
  /\ (savedData h = None -> settings s' = DEFAULT_SETTINGS).
Proof.
  intros Hdata s'.
  assert (Hempty : accessToken (settings s') = "" \/ refreshToken (settings s') = "").
  { subst s'. unfold loadSettings. unfold_host. simpl.
    destruct Hdata as [-> | (d & -> & [Ha|Hr])]; simpl.
    - by left.
    - left. by rewrite Ha.
    - right. by rewrite Hr. }
  destruct (unauthenticated_syncVault encodeURI s' Hempty) as [Hauth Hsync].
  split; [exact Hauth|]. split.
  - rewrite Hsync. by apply requestsIssued_same.
  - intros Hnone. subst s'. unfold loadSettings. unfold_host. simpl.
    by rewrite Hnone.
Qed.

Lemma loadSettings_without_tokens_witness :
  settings (core (loadSettings (Desk.loaded Scenario.fresh)).2) = DEFAULT_SETTINGS
  /\ isAuthenticated (core (loadSettings (Desk.loaded Scenario.fresh)).2)
     = (Ret false, core (loadSettings (Desk.loaded Scenario.fresh)).2).
Proof.
  destruct (loadSettings_without_tokens (fun p => p) (Desk.loaded Scenario.fresh))
    as (Hauth & _ & Hdefault).
  - by left.
  - split; [by apply Hdefault | exact Hauth].
Defined.

(** ** The periodic timer *)

Lemma setupPeriodicSync_run h :
  timerInvariant h ->
  let config := settings (core h) in
  setupPeriodicSync h
  = if periodicSync config && (0 <? syncIntervalMinutes config)%Z then
      (Ret tt,
       set_core
         (set_console
            (console (core h)
             ++ ["Sync periódico configurado cada "
                 +:+ JS.show (syncIntervalMinutes config) +:+ " min."])
            (core h))
         (set_syncIntervalId (Some (nextIntervalId h))
            (set_nextIntervalId (nextIntervalId h + 1)
               (set_intervals
                  [(nextIntervalId h, syncIntervalMinutes config * 60 * 1000)] h))))
    else (Ret tt, set_syncIntervalId None (set_intervals [] h)).
Proof.
  intros [Hnext Hinv] config. subst config.
  unfold setupPeriodicSync, clearInterval, setInterval, console_log, modify.
  unfold_host.
  destruct h as [s de me dl sd pk [id|] iv nx]; simpl in *.
  - destruct Hinv as [Hid (ms & ->)].
    assert (Hne : (id =? 0)%Z = false) by (apply Z.eqb_neq; lia).
    rewrite Hne. simpl. rewrite Z.eqb_refl. simpl.
    destruct (periodicSync (settings s) && _); reflexivity.
  - subst iv. destruct (periodicSync (settings s) && _); reflexivity.
Qed.

Lemma setupPeriodicSync_effect (h : Host) :
  timerInvariant h ->
  let config := settings (core h) in
  let h' := (setupPeriodicSync h).2 in
  (setupPeriodicSync h).1 = Ret tt
  /\ timerInvariant h'
  /\ settings (core h') = config
  /\ (periodicSync config = true /\ 0 < syncIntervalMinutes config ->
      intervals h' = [(nextIntervalId h, syncIntervalMinutes config * 60000)]
      /\ syncIntervalId h' = Some (nextIntervalId h))
  /\ (periodicSync config = false \/ syncIntervalMinutes config <= 0 ->
      intervals h' = [] /\ syncIntervalId h' = None).
Proof.
  intros Hinv config h'. subst h'.
  rewrite (setupPeriodicSync_run h Hinv). fold config.
  destruct Hinv as [Hnext _].
  destruct (periodicSync config) eqn:Hp;
    destruct (0 <? syncIntervalMinutes config)%Z eqn:Hm; simpl;
    try apply Z.ltb_lt in Hm; try apply Z.ltb_ge in Hm;
    (split; [reflexivity|]).
  - split; [|split; [reflexivity|split]].
    + split; simpl; [lia|]. split; [lia|]. by eexists.
    + intros _. split; [|reflexivity]. do 2 f_equal. lia.
    + intros [?|?]; [discriminate | lia].
  - split; [|split; [reflexivity|split]].
    + split; simpl; [lia | reflexivity].
    + intros [_ ?]. lia.
    + done.
  - split; [|split; [reflexivity|split]].
    + split; simpl; [lia | reflexivity].
    + intros [? _]. discriminate.
    + done.
  - split; [|split; [reflexivity|split]].
    + split; simpl; [lia | reflexivity].
    + intros [? _]. discriminate.
    + done.
Qed.

(** X24.  [setupPeriodicSync] never leaves more than one interval
    running.  If the only interval is the one whose handle the plugin
    holds, then afterwards this is so again: with periodic sync on and a
    positive number of minutes there is exactly one interval, a new one,
    of that many minutes in milliseconds, the old one being cleared;
    otherwise there is none and no handle.  The settings are not
    touched. *)
Theorem setupPeriodicSync_single_timer (h : Host) :
  timerInvariant h ->
  let config := settings (core h) in
  let h' := (setupPeriodicSync h).2 in
  (setupPeriodicSync h).1 = Ret tt
  /\ timerInvariant h'
  /\ settings (core h') = config
  /\ (periodicSync config = true /\ 0 < syncIntervalMinutes config ->
      intervals h' = [(nextIntervalId h, syncIntervalMinutes config * 60000)]
      /\ syncIntervalId h' = Some (nextIntervalId h))
  /\ (periodicSync config = false \/ syncIntervalMinutes config <= 0 ->
      intervals h' = [] /\ syncIntervalId h' = None).
Proof. exact (setupPeriodicSync_effect h). Qed.

Lemma setupPeriodicSync_single_timer_witness :
  intervals (setupPeriodicSync Desk.running).2 = [(2, 300000)]
  /\ syncIntervalId (setupPeriodicSync Desk.running).2 = Some 2.
Proof.
  destruct (setupPeriodicSync_single_timer Desk.running) as (_ & _ & _ & Hon & _).
  - split; [reflexivity|]. simpl. split; [lia|]. by eexists.
  - apply Hon. split; [reflexivity | reflexivity].
Defined.

(** X25.  Switching periodic sync in the settings tab stores the choice
    in the settings and in the saved data and sets the timer up anew:
    switched off, no interval is left running; switched on with a
    positive number of minutes, exactly one is. *)
Theorem onPeriodicSyncChange_timer (val : bool) (h : Host) :
  timerInvariant h ->
  let h' := (onPeriodicSyncChange val h).2 in
  (onPeriodicSyncChange val h).1 = Ret tt
  /\ periodicSync (settings (core h')) = val
  /\ savedData h' = Some (dataOf (settings (core h')))
  /\ timerInvariant h'
  /\ (val = false -> intervals h' = [] /\ syncIntervalId h' = None)
  /\ (val = true -> 0 < syncIntervalMinutes (settings (core h)) ->
      intervals h'
      = [(nextIntervalId h, syncIntervalMinutes (settings (core h)) * 60000)]).
Proof.
  intros Hinv h'.
  set (h1 := set_savedData
               (Some (dataOf (set_periodicSync val (settings (core h)))))
               (set_core (set_settings (set_periodicSync val (settings (core h)))
                            (core h)) h)).
  assert (Hrun : onPeriodicSyncChange val h = setupPeriodicSync h1).
  { unfold onPeriodicSyncChange, saveSettings, modify. unfold_host.
    by destruct h as [[] ? ? ? ? ? ? ? ?]. }
  assert (Hinv1 : timerInvariant h1) by (by destruct h as [[] ? ? ? ? ? ? ? ?]).
  destruct (setupPeriodicSync_effect h1 Hinv1)
    as (Hres & Hinv' & Hset & Hon & Hoff).
  subst h'. rewrite Hrun.
  assert (Hcfg : settings (core h1) = set_periodicSync val (settings (core h)))
    by (by destruct h as [[] ? ? ? ? ? ? ? ?]).
  assert (Hnext : nextIntervalId h1 = nextIntervalId h)
    by (by destruct h as [[] ? ? ? ? ? ? ? ?]).
  rewrite Hcfg, ?Hnext in *.
  split; [exact Hres|]. split; [by rewrite Hset|]. split.
  { rewrite Hset. rewrite (setupPeriodicSync_run h1 Hinv1), Hcfg.
    destruct (periodicSync _ && _); by destruct h as [[] ? ? ? ? ? ? ? ?]. }
  split; [exact Hinv'|]. split.
  - intros ->. apply Hoff. by left.
  - intros -> Hmin. by apply Hon.
Qed.

Lemma onPeriodicSyncChange_timer_witness :
  intervals (onPeriodicSyncChange false Desk.running).2 = []
  /\ intervals (onPeriodicSyncChange true Desk.running).2 = [(2, 300000)].
Proof.
  split.
  - destruct (onPeriodicSyncChange_timer false Desk.running)
      as (_ & _ & _ & _ & Hoff & _).
    + split; [reflexivity|]. simpl. split; [lia|]. by eexists.
    + by apply Hoff.
  - destruct (onPeriodicSyncChange_timer true Desk.running)
      as (_ & _ & _ & _ & _ & Hon).
    + split; [reflexivity|]. simpl. split; [lia|]. by eexists.
    + apply Hon; reflexivity.
Defined.

(** X26.  After [onUnload] no interval of the plugin is running, if the
    only one was the one it held the handle of; the handle itself stays
    in place. *)
Theorem onUnload_stops_timer (h : Host) :
  timerInvariant h ->
  (onUnload h).1 = Ret tt
  /\ intervals (onUnload h).2 = []
  /\ syncIntervalId (onUnload h).2 = syncIntervalId h
  /\ settings (core (onUnload h).2) = settings (core h).
Proof.
  intros [Hnext Hinv].
  unfold onUnload, clearInterval, console_log, modify. unfold_host.
  destruct h as [s de me dl sd pk [id|] iv nx]; simpl in *.
  - destruct Hinv as [Hid (ms & ->)].
    assert (Hne : (id =? 0)%Z = false) by (apply Z.eqb_neq; lia).
    rewrite Hne. simpl. rewrite Z.eqb_refl. by destruct s.
  - subst iv. by destruct s.
Qed.

Lemma onUnload_stops_timer_witness :
  intervals Desk.running = [(1, 300000)]
  /\ intervals (onUnload Desk.running).2 = [].
Proof.
  split; [reflexivity|].
  apply (onUnload_stops_timer Desk.running).
  split; [reflexivity|]. simpl. split; [lia|]. by eexists.
Defined.

(** ** Signing in and out *)

(** X27.  After the disconnect button the credential is gone, in memory
    and in the saved data, and only the credential: both tokens are
    empty and the expiry is 0, the other settings are kept.  From then on
    the plugin is not authenticated: the timer and the file events do
    nothing, [syncVault] sends nothing, and loading the saved data again
    changes none of this. *)
Theorem onDisconnect_erases_credential (encodeURI : string -> string) (h : Host) :
  let h' := (onDisconnect h).2 in
  let s' := core h' in
  (onDisconnect h).1 = Ret tt
  /\ settings s'
     = set_accessTokenExpiresAt 0
         (set_refreshToken "" (set_accessToken "" (settings (core h))))
  /\ savedData h' = Some (dataOf (settings s'))
  /\ notices s' = (notices (core h) ++ ["Desconectado de OneDrive."])%list
  /\ syncIfAuthenticated encodeURI s' = (Ret tt, s')
  /\ requestsIssued s' (syncVault encodeURI s').2 = []
  /\ settings (core (loadSettings h').2) = settings s'.
Proof.
  intros h' s'.
  assert (E : onDisconnect h
    = (Ret tt,
       set_core
         (set_notices (notices (core h) ++ ["Desconectado de OneDrive."])
            (set_settings
               (set_accessTokenExpiresAt 0
                  (set_refreshToken "" (set_accessToken "" (settings (core h)))))
               (core h)))
         (set_savedData
            (Some (dataOf
                     (set_accessTokenExpiresAt 0
                        (set_refreshToken ""
                           (set_accessToken "" (settings (core h))))))) h))).
  { unfold onDisconnect, saveSettings, Notice, modify. unfold_host.
    by destruct h as [[] ? ? ? ? ? ? ? ?]. }
  subst s' h'. rewrite E. cbn [fst snd].
  set (h' := set_core _ _).
  assert (Hset : settings (core h')
    = set_accessTokenExpiresAt 0
        (set_refreshToken "" (set_accessToken "" (settings (core h)))))
    by (by destruct h as [[] ? ? ? ? ? ? ? ?]).
  assert (Hsaved : savedData h' = Some (dataOf (settings (core h'))))
    by (by destruct h as [[] ? ? ? ? ? ? ? ?]).
  assert (Hempty : accessToken (settings (core h')) = ""
                   \/ refreshToken (settings (core h')) = "")
    by (left; by rewrite Hset).
  destruct (unauthenticated_syncVault encodeURI (core h') Hempty)
    as [Hauth Hsync].
  split; [reflexivity|]. split; [exact Hset|]. split; [exact Hsaved|].
  split; [by destruct h as [[] ? ? ? ? ? ? ? ?]|]. split.
  { unfold syncIfAuthenticated. unfold bind. by rewrite Hauth. }
  split.
  { rewrite Hsync. by apply requestsIssued_same. }
  change (assignSettings DEFAULT_SETTINGS (savedData h') = settings (core h')).
  by rewrite Hsaved, assignSettings_dataOf.
Qed.

(** X28.  The sign-in callback never throws, sends at most one request
    and none without a code, and stores a credential only when the
    exchange succeeds: without a code, or when the token endpoint does
    not answer with a success (the request is rejected, the answer is
    not JSON or is an error envelope), the settings and the saved data
    are what they were. *)
Theorem onAuthCallback_failure_keeps_settings (code : option string) (h : Host) :
  let out := onAuthCallback code h in
  out.1 = Ret tt
  /\ (JS.nullish code "" = "" -> requestsIssued (core h) (core out.2) = [])
  /\ (JS.nullish code "" <> "" ->
      requestsIssued (core h) (core out.2)
      = [exchangeRequest (settings (core h)) (JS.nullish code "") (pkceVerifier h)])
  /\ (JS.nullish code "" = ""
      \/ (forall dt r q,
            tokenEndpoint (core h) <> Arrived dt (Some (AuthSuccess r)) :: q) ->
      settings (core out.2) = settings (core h)
      /\ savedData out.2 = savedData h).
Proof.
  intros out. subst out. unfold onAuthCallback.
  destruct (JS.truthy (JS.nullish code "")) eqn:Hcode; cbn [negb].
  - apply truthy_true in Hcode.
    unfold exchangeAuthCodeForTokens, saveSettings, Notice, console_log, Date_now,
      modify, gets.
    unfold_host. unfold parsed, exchange, bind, ret, throw. cbv beta iota zeta.
    destruct h as [s de me dl sd pk id iv nx]; cbn [core pkceVerifier savedData].
    destruct (tokenEndpoint s) as [|[reason|dt [[r|e]|]] q] eqn:Hq;
      cbn [fst snd core savedData];
      (split; [reflexivity|]); (split; [done|]);
      (split; [intros _; apply requestsIssued_app; by destruct s|]);
      try (intros _; split; by destruct s).
    intros [Hno|Hno]; [done|]. by destruct (Hno dt r q).
  - apply truthy_false in Hcode.
    unfold Notice, modify. unfold_host.
    split; [reflexivity|]. split.
    { intros _. apply requestsIssued_same. by destruct h as [[] ? ? ? ? ? ? ? ?]. }
    split; [done|]. intros _. by destruct h as [[] ? ? ? ? ? ? ? ?].
Qed.

Lemma onAuthCallback_failure_keeps_settings_witness :
  let out := onAuthCallback (Some "code-1")
               (Desk.signingIn (AuthFailure Scenario.invalid_grant)) in
  out.1 = Ret tt
  /\ settings (core out.2) = DEFAULT_SETTINGS
  /\ savedData out.2 = None.
Proof.
  destruct (onAuthCallback_failure_keeps_settings (Some "code-1")
              (Desk.signingIn (AuthFailure Scenario.invalid_grant)))
    as (Hres & _ & _ & Hkeep).
  split; [exact Hres|]. apply Hkeep. right. intros dt r q. discriminate.
Defined.

(** X29.  When the callback brings a code and the exchange succeeds, the
    code is sent with the stored verifier, the tokens of the answer and
    the expiry (two minutes short of [expires_in], 3600 seconds when it
    is 0) are stored and saved, and the notice of completion is shown.
    Whether the plugin is authenticated afterwards depends on the answer
    alone: it is exactly when the access token is non-empty and a
    non-empty refresh token came with it. *)
Theorem onAuthCallback_success
    (code : string) (h : Host) (dt : Z) (r : AuthSuccessResponse)
    (q : list (Fetched (option TokenReply))) :
  code <> "" ->
  tokenEndpoint (core h) = Arrived dt (Some (AuthSuccess r)) :: q ->
  let out := onAuthCallback (Some code) h in
  let s' := core out.2 in
  out.1 = Ret tt
  /\ requestsIssued (core h) s'
     = [exchangeRequest (settings (core h)) code (pkceVerifier h)]
  /\ settings s'
     = set_accessTokenExpiresAt
         (clock (core h) + dt + JS.num_or (expires_in r) 3600 * 1000 - 120000)
         (set_refreshToken (JS.nullish (refresh_token r) "")
            (set_accessToken (access_token r) (settings (core h))))
  /\ savedData out.2 = Some (dataOf (settings s'))
  /\ notices s'
     = (notices (core h) ++ ["¡Autenticación con OneDrive completada!"])%list
  /\ (isAuthenticated s').1
     = Ret (JS.truthy (access_token r)
            && JS.truthy (JS.nullish (refresh_token r) "")).
Proof.
  intros Hcode Hq out s'. subst s' out. unfold onAuthCallback.
  apply truthy_true in Hcode. cbn [JS.nullish]. rewrite Hcode. cbn [negb].
  unfold exchangeAuthCodeForTokens, saveSettings, Notice, console_log, Date_now,
    modify, gets.
  unfold_host. unfold parsed, exchange, bind, ret, throw. cbv beta iota zeta.
  destruct h as [s de me dl sd pk id iv nx]; cbn [core pkceVerifier savedData] in *.
  rewrite Hq. cbn [fst snd core savedData].
  split; [reflexivity|]. split; [apply requestsIssued_app; by destruct s|].
  destruct s; repeat split.
Qed.

Lemma onAuthCallback_success_witness :
  (isAuthenticated
     (core (onAuthCallback (Some "code-1")
              (Desk.signingIn (Scenario.granted "at-1" (Some "rt-1")))).2)).1
  = Ret true
  /\ (isAuthenticated
        (core (onAuthCallback (Some "code-1")
                 (Desk.signingIn (Scenario.granted "at-1" None))).2)).1
     = Ret false
  /\ notices (core (onAuthCallback (Some "code-1")
                      (Desk.signingIn (Scenario.granted "at-1" None))).2)
     = ["¡Autenticación con OneDrive completada!"].
Proof.
  destruct (onAuthCallback_success "code-1"
              (Desk.signingIn (Scenario.granted "at-1" (Some "rt-1"))) 7
              (mkAuthSuccess "Bearer" 3600 "Files.ReadWrite" "at-1" (Some "rt-1")) [])
    as (_ & _ & _ & _ & _ & Hauth); [discriminate | reflexivity |].
  destruct (onAuthCallback_success "code-1"
              (Desk.signingIn (Scenario.granted "at-1" None)) 7
              (mkAuthSuccess "Bearer" 3600 "Files.ReadWrite" "at-1" None) [])
    as (_ & _ & _ & _ & Hnotice & Hauth'); [discriminate | reflexivity |].
  split; [exact Hauth|]. split; [exact Hauth' | exact Hnotice].
Defined.
